(** * tarxan-mcp: the deploy resolver and the tool handlers

    A shallow embedding of the two tool-call handlers of the repository:

    - the NATS variant ([src/index.ts]): [deploy] with the strict path and
      the name-based fallback over the hardcoded [templates], [delete],
      [list_templates], all publishing on a NATS connection;
    - the REST variant (the axios-based server): [deploy], [delete] and
      [list_templates] against an HTTP API.

    Values that arrive as [unknown] are modelled by [JsValue]; the part of
    zod 3 the schemas use ([z.object] over [z.string] and [z.any], [parse]
    and [safeParse], the default messages) is modelled in [Zod]. *)

From Stdlib Require Import String Ascii List Bool ZArith DecimalString.
Import ListNotations.
Local Open Scope list_scope.
Local Open Scope string_scope.
Set Warnings "-register-all".

(* ================================================================= *)
(** ** JavaScript values *)

Module Js.

(** A JSON-shaped JavaScript value. An absent property reads as
    [JUndefined]. Objects keep their properties in insertion order; a
    property read takes the first binding of the key. Numbers are the
    safe integers (those below 2^53 in magnitude, which [String(n)]
    renders in plain decimal): the handlers only look at a number's
    type, its truthiness and its rendering. *)
Inductive JsValue : Type :=
| JUndefined
| JNull
| JBool (b : bool)
| JNumber (n : Z)
| JString (s : string)
| JArray (items : list JsValue)
| JObject (props : list (string * JsValue)).

(** Own-property lookup in a property list. *)
Fixpoint lookup (key : string) (props : list (string * JsValue))
  : option JsValue :=
  match props with
  | [] => None
  | (k, v) :: rest => if String.eqb k key then Some v else lookup key rest
  end.

(** [v[key]] for the property names the handlers read ([user_id],
    [template_id], [creds], [name], [server_id], [attributes]): none of
    them is a property of a string, number, boolean or array, so only an
    object can give something else than [undefined]. The handlers never
    read a property of [null] or [undefined] (the reads are behind [!data]
    and [?.]). *)
Definition getProp (v : JsValue) (key : string) : JsValue :=
  match v with
  | JObject props =>
      match lookup key props with Some x => x | None => JUndefined end
  | _ => JUndefined
  end.

(** [!!v]. *)
Definition truthy (v : JsValue) : bool :=
  match v with
  | JUndefined | JNull => false
  | JBool b => b
  | JNumber n => negb (Z.eqb n 0)
  | JString s => negb (String.eqb s "")
  | JArray _ | JObject _ => true
  end.

(** [v === null || v === undefined], the test behind [??] and [?.]. *)
Definition nullish (v : JsValue) : bool :=
  match v with
  | JUndefined | JNull => true
  | _ => false
  end.

(** [a ?? b]. *)
Definition coalesce (a b : JsValue) : JsValue :=
  if nullish a then b else a.

(** [v?.key]. *)
Definition optChain (v : JsValue) (key : string) : JsValue :=
  if nullish v then JUndefined else getProp v key.

(** [Array.prototype.join]. *)
Fixpoint join (sep : string) (parts : list string) : string :=
  match parts with
  | [] => ""
  | [p] => p
  | p :: rest => p ++ sep ++ join sep rest
  end.

(** Decimal rendering of a safe integer, as [String(n)] gives it. *)
Definition numberToString (n : Z) : string :=
  NilZero.string_of_int (Z.to_int n).

(** [String(v)], which is what a template literal [`${v}`] inserts;
    [None] when the conversion throws its [TypeError]. An object is
    converted by its [toString]: the one of [Object.prototype], unless
    the object has a [toString] key of its own, which (coming from JSON)
    cannot be called, and then nothing converts the object. An array
    joins the conversions of its elements, [null] and [undefined]
    counting as empty. *)
Fixpoint toString (v : JsValue) : option string :=
  match v with
  | JUndefined => Some "undefined"
  | JNull => Some "null"
  | JBool true => Some "true"
  | JBool false => Some "false"
  | JNumber n => Some (numberToString n)
  | JString s => Some s
  | JArray items =>
      option_map (join ",")
        ((fix elements (l : list JsValue) : option (list string) :=
            match l with
            | [] => Some []
            | x :: rest =>
                match match x with
                      | JUndefined | JNull => Some ""
                      | _ => toString x
                      end with
                | None => None
                | Some s =>
                    match elements rest with
                    | None => None
                    | Some ss => Some (s :: ss)
                    end
                end
            end) items)
  | JObject props =>
      match lookup "toString" props with
      | Some _ => None
      | None => Some "[object Object]"
      end
  end.

(** [String.prototype.toLowerCase] on one byte: the letters [A]-[Z] move
    to [a]-[z]; every other byte (UTF-8 bytes of non-ASCII text included)
    stays. This is the whole of the method on ASCII strings, as the
    names of [templates] are; on other strings the method also lowers
    letters outside ASCII, which this one leaves. *)
Definition lowerAscii (c : ascii) : ascii :=
  let n := nat_of_ascii c in
  if andb (Nat.leb 65 n) (Nat.leb n 90) then ascii_of_nat (n + 32) else c.

Fixpoint toLowerCase (s : string) : string :=
  match s with
  | EmptyString => EmptyString
  | String c rest => String (lowerAscii c) (toLowerCase rest)
  end.

(** The line feed of ["\n"]. *)
Definition LF : string := String (ascii_of_nat 10) EmptyString.

(** [a || b] on strings: the empty string is falsy. *)
Definition orElse (a b : string) : string :=
  if String.eqb a "" then b else a.

(** [s.includes(sub)]: [sub] occurs in [s] at some position. *)
Fixpoint includes (s sub : string) : bool :=
  if String.prefix sub s then true
  else match s with
       | EmptyString => false
       | String _ rest => includes rest sub
       end.

End Js.
Import Js.

(* ================================================================= *)
(** ** The part of zod 3 that the schemas use *)

Module Zod.

(** One entry of [ZodError.errors]: where, and why. *)
Record ZodIssue : Type := mkIssue {
  path : list string;
  message : string
}.

(** zod's [getParsedType]. *)
Definition parsedType (v : JsValue) : string :=
  match v with
  | JUndefined => "undefined"
  | JNull => "null"
  | JBool _ => "boolean"
  | JNumber _ => "number"
  | JString _ => "string"
  | JArray _ => "array"
  | JObject _ => "object"
  end.

(** The default message of an [invalid_type] issue. *)
Definition invalidTypeMessage (expected received : string) : string :=
  if String.eqb received "undefined" then "Required"
  else "Expected " ++ expected ++ ", received " ++ received.

(** The field schemas that occur: [z.string()] and [z.any()]. *)
Inductive ZodField : Type :=
| ZString
| ZAny.

(** [z.object({...})]: the shape, in declaration order. *)
Definition ZodObject : Type := list (string * ZodField).

(** Issues of one field. [z.any()] takes every value, [undefined]
    included, so a key declared [z.any()] may be absent. *)
Definition fieldIssues (key : string) (f : ZodField) (v : JsValue)
  : list ZodIssue :=
  match f with
  | ZAny => []
  | ZString =>
      match v with
      | JString _ => []
      | _ => [mkIssue [key] (invalidTypeMessage "string" (parsedType v))]
      end
  end.

(** Every key of the shape is checked; the issues are collected in shape
    order, none is dropped. *)
Fixpoint shapeIssues (shape : ZodObject) (data : JsValue) : list ZodIssue :=
  match shape with
  | [] => []
  | (key, f) :: rest =>
      (fieldIssues key f (getProp data key) ++ shapeIssues rest data)%list
  end.

(** The parsed object: the keys of the shape, in shape order; unknown
    keys are stripped; a key is set when it is in the input or its value
    is not [undefined]. *)
Fixpoint shapeOutput (shape : ZodObject) (props : list (string * JsValue))
  : list (string * JsValue) :=
  match shape with
  | [] => []
  | (key, _) :: rest =>
      match lookup key props with
      | Some v => (key, v) :: shapeOutput rest props
      | None => shapeOutput rest props
      end
  end.

Inductive SafeParseResult : Type :=
| Success (data : JsValue)
| Failure (errors : list ZodIssue).

(** [schema.safeParse(data)]. *)
Definition safeParse (shape : ZodObject) (data : JsValue) : SafeParseResult :=
  match data with
  | JObject props =>
      match shapeIssues shape data with
      | [] => Success (JObject (shapeOutput shape props))
      | issues => Failure issues
      end
  | _ => Failure [mkIssue [] (invalidTypeMessage "object" (parsedType data))]
  end.

(** [`${e.path.join(".")}: ${e.message}`] *)
Definition formatIssue (e : ZodIssue) : string :=
  join "." (path e) ++ ": " ++ message e.

(** [errors.map(...).join(", ")] *)
Definition formatIssues (errors : list ZodIssue) : string :=
  join ", " (map formatIssue errors).

End Zod.

(* ================================================================= *)
(** ** Exceptions *)

(** What a handler can throw. *)
Inductive Thrown : Type :=
| Error (message : string)
| TypeError (message : string)
| ZodError (errors : list Zod.ZodIssue)
| AxiosError (message : string).

(** The outcome of a computation that may throw. *)
Inductive Result (A : Type) : Type :=
| Ok (a : A)
| Throw (e : Thrown).
Arguments Ok {A} a.
Arguments Throw {A} e.

(** The value of [${v}] inside a template literal, or the [TypeError]
    of a value that cannot be converted. *)
Definition templateString (v : JsValue) : Result string :=
  match toString v with
  | Some s => Ok s
  | None => Throw (TypeError "Cannot convert object to primitive value")
  end.

(** [schema.parse(data)]: as [safeParse], but a failure is thrown. *)
Definition zparse (shape : Zod.ZodObject) (data : JsValue) : Result JsValue :=
  match Zod.safeParse shape data with
  | Zod.Success d => Ok d
  | Zod.Failure errors => Throw (ZodError errors)
  end.

(** The text content of a tool result. *)
Record Content : Type := mkContent {
  type : string;
  text : string
}.

Record CallToolResult : Type := mkResult {
  content : list Content
}.

Definition textResult (t : string) : CallToolResult :=
  mkResult [mkContent "text" t].

(* ================================================================= *)
(** ** The NATS variant ([src/index.ts]) *)

Module Nats.

(** [TemplateSchema]: an entry of the catalog. *)
Record Template : Type := mkTemplate {
  id : string;
  name : string;
  description : option string
}.

(** The hardcoded example templates. *)
Definition templates : list Template :=
  [ mkTemplate "tpl-mongo" "MongoDB Server" (Some "Basic MongoDB stack");
    mkTemplate "tpl-gpt" "Basic GPT Server" (Some "A basic inference stack");
    mkTemplate "tpl-scraper" "Scraper + Storage"
      (Some "Web scraper with data sink") ].

Definition DeploySchema : Zod.ZodObject :=
  [("user_id", Zod.ZString); ("template_id", Zod.ZString); ("creds", Zod.ZAny)].

Definition DeleteSchema : Zod.ZodObject :=
  [("server_id", Zod.ZString)].

(** [request.params]: [tool] is its [name] (the tool called); an absent
    [arguments] or [resource] is [JUndefined]. *)
Record ToolRequestParams : Type := mkParams {
  tool : string;
  arguments : JsValue;
  resource : JsValue
}.

(** One [nats.publish(subject, sc.encode(JSON.stringify(payload)))]: the
    subject and the payload that is serialised. *)
Record Published : Type := mkPublished {
  subject : string;
  payload : JsValue
}.

(** The module-level [let nats]: undefined until [run] has connected;
    then the connection, seen through what was published on it, oldest
    first. *)
Record State : Type := mkState {
  nats : option (list Published)
}.

(** A handler step: it may throw, and it may publish. *)
Definition M (A : Type) : Type := State -> Result A * State.

Definition ret {A : Type} (a : A) : M A := fun st => (Ok a, st).

Definition throw {A : Type} (e : Thrown) : M A := fun st => (Throw e, st).

Definition bind {A B : Type} (m : M A) (k : A -> M B) : M B :=
  fun st =>
    match m st with
    | (Ok a, st') => k a st'
    | (Throw e, st') => (Throw e, st')
    end.

Definition lift {A : Type} (r : Result A) : M A := fun st => (r, st).

Notation "x <- m ;; k" := (bind m (fun x => k))
  (at level 61, m at next level, right associativity).

(** [nats.publish(subject, ...)] *)
Definition publish (subj : string) (body : JsValue) : M unit :=
  fun st =>
    match nats st with
    | Some sent => (Ok tt, mkState (Some (sent ++ [mkPublished subj body])%list))
    | None =>
        (* not reached: the handler tests [nats] before anything else *)
        (Throw (TypeError "Cannot read properties of undefined"), st)
    end.

(** The [catch] of the handler: a [ZodError] becomes an [Error] that lists
    the issues; anything else is thrown again. *)
Definition catchZod {A : Type} (m : M A) : M A :=
  fun st =>
    match m st with
    | (Throw (ZodError errors), st') =>
        (Throw (Error ("Invalid arguments: " ++ Zod.formatIssues errors)), st')
    | other => other
    end.

(** [name.toLowerCase()] inside the [find] callback: [name] comes from
    [data as any], and only a string has the method. *)
Definition callToLowerCase (v : JsValue) : Result string :=
  match v with
  | JString s => Ok (toLowerCase s)
  | _ => Throw (TypeError "name.toLowerCase is not a function")
  end.

(** [templates.find((t) => t.name.toLowerCase().includes(name.toLowerCase()))]:
    the callback runs on the entries in order and stops at the first hit;
    what it throws, [find] throws. *)
Fixpoint find (ts : list Template) (nm : JsValue) : Result (option Template) :=
  match ts with
  | [] => Ok None
  | t :: rest =>
      match callToLowerCase nm with
      | Throw e => Throw e
      | Ok needle =>
          if includes (toLowerCase (name t)) needle then Ok (Some t)
          else find rest nm
      end
  end.

(** The resolution of a deploy input (the block from [safeParse] to the
    assignment of [payload]) over the catalog [ts]. *)
Definition resolveDeploy (ts : list Template) (data : JsValue)
  : Result JsValue :=
  match Zod.safeParse DeploySchema data with
  | Zod.Success parsed => Ok parsed
  | Zod.Failure errors =>
      let nm := getProp data "name" in
      let creds := getProp data "creds" in
      let user_id := getProp data "user_id" in
      if negb (truthy nm) || negb (truthy user_id) || negb (truthy creds)
      then Throw (Error ("Invalid arguments: " ++ Zod.formatIssues errors))
      else
        match find ts nm with
        | Throw e => Throw e
        | Ok None =>
            match templateString nm with
            | Throw e => Throw e
            | Ok shown =>
                Throw (Error ("No template found matching name: " ++ shown))
            end
        | Ok (Some found) =>
            Ok (JObject [("user_id", user_id);
                         ("template_id", JString (id found));
                         ("creds", creds)])
        end
  end.

(** [args ?? resource?.attributes] *)
Definition inputOf (request : ToolRequestParams) : JsValue :=
  coalesce (arguments request) (optChain (resource request) "attributes").

(** The answer of the deploy tool: its text names the [user_id] and the
    [template_id] of the payload. *)
Definition deployAnswer (body : JsValue) : Result CallToolResult :=
  match templateString (getProp body "user_id") with
  | Throw e => Throw e
  | Ok user =>
      match templateString (getProp body "template_id") with
      | Throw e => Throw e
      | Ok template =>
          Ok (textResult ("Deploy event published for user " ++ user
                            ++ " using template " ++ template))
      end
  end.

Definition deploy (ts : list Template) (request : ToolRequestParams)
  : M CallToolResult :=
  let data := inputOf request in
  if negb (truthy data)
  then throw (Error "Missing deployment input (arguments or resource)")
  else
    body <- lift (resolveDeploy ts data) ;;
    _ <- publish "deploy" body ;;
    lift (deployAnswer body).

(** The answer of the delete tool. *)
Definition deleteAnswer (body : JsValue) : Result CallToolResult :=
  match templateString (getProp body "server_id") with
  | Throw e => Throw e
  | Ok server =>
      Ok (textResult ("Delete event published for server " ++ server))
  end.

Definition delete (request : ToolRequestParams) : M CallToolResult :=
  let data := inputOf request in
  if negb (truthy data)
  then throw (Error "Missing deletion input (arguments or resource)")
  else
    body <- lift (zparse DeleteSchema data) ;;
    _ <- publish "delete" body ;;
    lift (deleteAnswer body).

(** One line of [list_templates]. An absent or empty description adds
    nothing. *)
Definition templateLine (t : Template) : string :=
  "• " ++ name t ++ " (" ++ id t ++ ")"
    ++ match description t with
       | Some d => if String.eqb d "" then "" else " – " ++ d
       | None => ""
       end.

(** [TemplatesResponseSchema.parse] is the identity on a list of
    [Template]: the entries already have the schema's type. *)
Definition list_templates (ts : list Template) : M CallToolResult :=
  ret (textResult (join LF (map templateLine ts))).

(** The [CallToolRequestSchema] handler over the catalog [ts]. *)
Definition CallTool (ts : list Template) (request : ToolRequestParams)
  : M CallToolResult :=
  fun st =>
    match nats st with
    | None => (Throw (Error "NATS connection not established"), st)
    | Some _ =>
        catchZod
          (if String.eqb (tool request) "deploy" then deploy ts request
           else if String.eqb (tool request) "delete" then delete request
           else if String.eqb (tool request) "list_templates"
                then list_templates ts
           else throw (Error ("Unknown tool: " ++ tool request))) st
    end.

(** The handler of the server: the catalog is the constant [templates]. *)
Definition handler : ToolRequestParams -> M CallToolResult :=
  CallTool templates.

End Nats.

(* ================================================================= *)
(** ** The REST variant (the axios-based server) *)

Module Rest.

(** [interface Template]: an entry of what [GET /api/templates] returns. *)
Record Template : Type := mkTemplate {
  _id : string;
  name : string;
  path : string;
  fields : list string;
  type : string;
  sub_type : option string;
  require_subdomain : bool;
  require_custom_subdomain : bool;
  published_at : option string;
  created_at : string;
  updated_at : option string
}.

Definition DeploySchema : Zod.ZodObject :=
  [("template_id", Zod.ZString); ("creds", Zod.ZAny)].

Definition DeleteSchema : Zod.ZodObject :=
  [("server_id", Zod.ZString)].

(** [request.params]: [tool] is its [name]; an absent [arguments] is
    [JUndefined]. *)
Record ToolRequestParams : Type := mkParams {
  tool : string;
  arguments : JsValue
}.

(** A call on the axios client: the method with the url (and the body)
    handed to it, as the handler writes them. The client resolves the
    url against its [baseURL] before the request leaves. *)
Inductive HttpCall : Type :=
| Post (url : string) (body : JsValue)
| Delete (url : string)
| Get (url : string).

(** The API behind the client, for the time of one tool call: how it
    answers the call that is made, with [res.data] (read for
    [GET /api/templates] only) or with a rejection. An API whose answers
    change from one tool call to the next is another [Api] at the next
    call. *)
Definition Api : Type := HttpCall -> Result (list Template).

(** The calls sent so far, oldest first. *)
Definition State : Type := list HttpCall.

Definition M (A : Type) : Type := State -> Result A * State.

Definition ret {A : Type} (a : A) : M A := fun st => (Ok a, st).

Definition throw {A : Type} (e : Thrown) : M A := fun st => (Throw e, st).

Definition bind {A B : Type} (m : M A) (k : A -> M B) : M B :=
  fun st =>
    match m st with
    | (Ok a, st') => k a st'
    | (Throw e, st') => (Throw e, st')
    end.

Definition lift {A : Type} (r : Result A) : M A := fun st => (r, st).

Notation "x <- m ;; k" := (bind m (fun x => k))
  (at level 61, m at next level, right associativity).

(** [await client.post/delete/get]: the call goes out, then the answer
    (or the rejection) comes back. *)
Definition send (api : Api) (c : HttpCall) : M (list Template) :=
  fun st => (api c, (st ++ [c])%list).

Definition deploy (api : Api) (request : ToolRequestParams)
  : M CallToolResult :=
  body <- lift (zparse DeploySchema (arguments request)) ;;
  _ <- send api (Post "/api/servers" body) ;;
  template_id <- lift (templateString (getProp body "template_id")) ;;
  ret (textResult ("✅ Deployment triggered for template ID: " ++ template_id)).

Definition delete (api : Api) (request : ToolRequestParams)
  : M CallToolResult :=
  body <- lift (zparse DeleteSchema (arguments request)) ;;
  server_id <- lift (templateString (getProp body "server_id")) ;;
  _ <- send api (Delete ("/api/servers/" ++ server_id)) ;;
  ret (textResult ("🗑️ Server " ++ server_id ++ " deleted successfully")).

(** The text of one template in [list_templates]. *)
Definition templateEntry (t : Template) : string :=
  let id := _id t in
  let name := orElse (name t) "(unnamed)" in
  let type := orElse (type t) "(no type)" in
  let subType :=
    match sub_type t with
    | Some st => if String.eqb st "" then "" else " / " ++ st
    | None => ""
    end in
  let fields := join ", " (fields t) in
  "• " ++ name ++ " (" ++ id ++ ")" ++ LF
    ++ "  Type: " ++ type ++ subType ++ LF
    ++ "  Fields: " ++ fields.

(** The text of [list_templates] for the items the API returned. *)
Definition templatesText (items : list Template) : string :=
  orElse (join (LF ++ LF) (map templateEntry items)) "No templates found.".

Definition list_templates (api : Api) : M CallToolResult :=
  items <- send api (Get "/api/templates") ;;
  ret (textResult (templatesText items)).

(** The [CallToolRequestSchema] handler. *)
Definition handler (api : Api) (request : ToolRequestParams)
  : M CallToolResult :=
  if String.eqb (tool request) "deploy" then deploy api request
  else if String.eqb (tool request) "delete" then delete api request
  else if String.eqb (tool request) "list_templates" then list_templates api
  else throw (Error ("Unknown tool: " ++ tool request)).

End Rest.

(* ================================================================= *)
(** ** The tool listings *)

Module Listing.

(** One entry of [inputSchema.properties]. *)
Record Property : Type := mkProperty {
  type : string;
  description : string
}.

(** The [inputSchema] of a tool; a listing without [required] has the
    empty list. *)
Record InputSchema : Type := mkInputSchema {
  schemaType : string;
  properties : list (string * Property);
  required : list string
}.

(** One entry of [tools] in the answer to [ListToolsRequestSchema]. *)
Record Tool : Type := mkTool {
  name : string;
  toolDescription : string;
  inputSchema : InputSchema
}.

(** The tools the NATS variant lists. *)
Definition natsTools : list Tool :=
  [ mkTool "deploy" "Trigger a deploy action via NATS (by ID or name)"
      (mkInputSchema "object"
         [ ("user_id", mkProperty "string" "User ID");
           ("template_id",
            mkProperty "string" "Template ID (optional if name is given)");
           ("name",
            mkProperty "string" "Template name (optional if ID is given)");
           ("creds", mkProperty "object" "Credential object") ]
         ["user_id"; "creds"]);
    mkTool "delete" "Trigger a delete action via NATS"
      (mkInputSchema "object"
         [ ("server_id", mkProperty "string" "Server ID") ]
         ["server_id"]);
    mkTool "list_templates" "List available deployment templates"
      (mkInputSchema "object" [] []) ].

(** The tools the REST variant lists. *)
Definition restTools : list Tool :=
  [ mkTool "deploy" "Deploy a server using a template ID and credentials"
      (mkInputSchema "object"
         [ ("template_id",
            mkProperty "string" "ID of the template to deploy");
           ("creds", mkProperty "object" "Credential payload") ]
         ["template_id"; "creds"]);
    mkTool "delete" "Delete a server by ID"
      (mkInputSchema "object"
         [ ("server_id", mkProperty "string" "Server ID to delete") ]
         ["server_id"]);
    mkTool "list_templates" "List available deployment templates"
      (mkInputSchema "object" [] []) ].

End Listing.

(* ================================================================= *)
(** ** The vocabulary of the specification *)

(** The name [n] matches the entry [t]: lowercased, it is a substring of
    the entry's lowercased name. *)
Definition matches (n : string) (t : Nats.Template) : bool :=
  includes (toLowerCase (Nats.name t)) (toLowerCase n).

(** The input has the canonical shape: [DeploySchema] accepts it. *)
Definition strictShape (data : JsValue) : bool :=
  match Zod.safeParse Nats.DeploySchema data with
  | Zod.Success _ => true
  | Zod.Failure _ => false
  end.

(** The input supplies what the fallback needs: a name, a context id and
    credentials, each of them truthy. *)
Definition fallbackShape (data : JsValue) : bool :=
  truthy (getProp data "name") && truthy (getProp data "user_id")
    && truthy (getProp data "creds").

(** The command the fallback builds for the entry [t]. *)
Definition fallbackCommand (data : JsValue) (t : Nats.Template) : JsValue :=
  JObject [("user_id", getProp data "user_id");
           ("template_id", JString (Nats.id t));
           ("creds", getProp data "creds")].

(** What the specification asks the validation error to list, written
    from its words: for an input that is an object, every string field of
    the strict shape that is missing or not a string, with its path and
    the reason, in the order of the shape; for any other input, the one
    violation of the input itself. *)
Definition fieldViolation (data : JsValue) (field : string)
  : list Zod.ZodIssue :=
  match getProp data field with
  | JString _ => []
  | JUndefined => [Zod.mkIssue [field] "Required"]
  | v => [Zod.mkIssue [field]
            ("Expected string, received " ++ Zod.parsedType v)]
  end.

Definition strictViolations (data : JsValue) : list Zod.ZodIssue :=
  match data with
  | JObject _ =>
      (fieldViolation data "user_id" ++ fieldViolation data "template_id")%list
  | JUndefined => [Zod.mkIssue [] "Required"]
  | v => [Zod.mkIssue [] ("Expected object, received " ++ Zod.parsedType v)]
  end.

(** The string is ASCII: every byte is below 128. On such strings
    [toLowerCase] is the whole of [String.prototype.toLowerCase]. *)
Fixpoint isAscii (s : string) : bool :=
  match s with
  | EmptyString => true
  | String c rest => Nat.ltb (nat_of_ascii c) 128 && isAscii rest
  end.

(** The shape declares the key [k]. *)
Definition hasKey (k : string) (shape : Zod.ZodObject) : bool :=
  existsb (fun entry => String.eqb (fst entry) k) shape.

(** The three lines the specification gives for one template of
    [list_templates]. *)
Definition entryLines (t : Rest.Template) : list string :=
  [ "• " ++ orElse (Rest.name t) "(unnamed)" ++ " (" ++ Rest._id t ++ ")";
    "  Type: " ++ orElse (Rest.type t) "(no type)"
      ++ match Rest.sub_type t with
         | Some st => if String.eqb st "" then "" else " / " ++ st
         | None => ""
         end;
    "  Fields: " ++ join ", " (Rest.fields t) ].

(* ================================================================= *)
(** ** Lemmas on the building blocks *)

Section Finding.

Import Nats.

(** With a string for a name, [find] is the first-match search of the
    list. *)
Lemma find_string (ts : list Template) (n : string) :
  Nats.find ts (JString n) = Ok (List.find (matches n) ts).
Proof.
  induction ts as [|t rest IH]; [reflexivity|].
  cbn [Nats.find callToLowerCase List.find].
  unfold matches at 1.
  destruct (includes (toLowerCase (name t)) (toLowerCase n)); auto.
Qed.

Lemma find_first (f : Template -> bool) (pre post : list Template)
      (t : Template) :
  (forall x, In x pre -> f x = false) -> f t = true ->
  List.find f (pre ++ t :: post) = Some t.
Proof.
  intros Hpre Ht. induction pre as [|p pre IH]; cbn [app List.find].
  - now rewrite Ht.
  - rewrite (Hpre p (or_introl eq_refl)). apply IH.
    intros x Hx. apply Hpre. now right.
Qed.

Lemma find_none (f : Template -> bool) (ts : list Template) :
  (forall x, In x ts -> f x = false) -> List.find f ts = None.
Proof.
  intros H. induction ts as [|t rest IH]; [reflexivity|].
  cbn [List.find]. rewrite (H t (or_introl eq_refl)).
  apply IH. intros x Hx. apply H. now right.
Qed.

Lemma filter_single_first (f : Template -> bool) (ts : list Template)
      (t : Template) :
  filter f ts = [t] -> List.find f ts = Some t.
Proof.
  induction ts as [|x rest IH]; cbn [filter List.find]; [discriminate|].
  destruct (f x); [now intros [= ->] | exact IH].
Qed.

End Finding.

Section Resolving.

Import Nats.

Variable ts : list Template.

(** The fallback, once the strict shape has failed and the guard has
    passed, is decided by [find] alone. *)
Lemma resolveDeploy_fallback (data : JsValue) :
  strictShape data = false -> fallbackShape data = true ->
  resolveDeploy ts data =
    match Nats.find ts (getProp data "name") with
    | Throw e => Throw e
    | Ok None =>
        match templateString (getProp data "name") with
        | Throw e => Throw e
        | Ok shown =>
            Throw (Error ("No template found matching name: " ++ shown))
        end
    | Ok (Some found) => Ok (fallbackCommand data found)
    end.
Proof.
  unfold strictShape, fallbackShape, resolveDeploy, fallbackCommand.
  destruct (Zod.safeParse DeploySchema data); [discriminate|].
  intros _ H.
  apply andb_prop in H as [H Hc]. apply andb_prop in H as [Hn Hu].
  rewrite Hn, Hu, Hc. reflexivity.
Qed.

End Resolving.

(* ================================================================= *)
(** ** The deploy resolver *)

Section Resolver.

Import Nats.

(** C1. An input of the canonical strict shape (a string [user_id], a
    string [template_id], and [creds]) is the resolved command: the
    command carries the three supplied values unchanged, whatever the
    catalog is (the catalog is not consulted); and an input that is
    literally the three fields is returned as it is. *)
Theorem strict_path_keeps_input
        (ts : list Template) (props : list (string * JsValue))
        (u t : string) (c : JsValue) :
  lookup "user_id" props = Some (JString u) ->
  lookup "template_id" props = Some (JString t) ->
  lookup "creds" props = Some c ->
  resolveDeploy ts (JObject props) =
    Ok (JObject [("user_id", JString u); ("template_id", JString t);
                 ("creds", c)])
  /\ resolveDeploy ts
       (JObject [("user_id", JString u); ("template_id", JString t);
                 ("creds", c)])
     = Ok (JObject [("user_id", JString u); ("template_id", JString t);
                    ("creds", c)]).
Proof.
  intros Hu Ht Hc. split; [|reflexivity].
  unfold resolveDeploy, Zod.safeParse, DeploySchema.
  cbn [Zod.shapeIssues Zod.shapeOutput getProp Zod.fieldIssues].
  rewrite Hu, Ht, Hc. reflexivity.
Qed.

Lemma strict_path_keeps_input_witness :
  resolveDeploy []
    (JObject [("name", JString "gpt"); ("creds", JObject []);
              ("template_id", JString "tpl-x"); ("user_id", JString "u1")])
  = Ok (JObject [("user_id", JString "u1"); ("template_id", JString "tpl-x");
                 ("creds", JObject [])]).
Proof.
  apply (strict_path_keeps_input []
           [("name", JString "gpt"); ("creds", JObject []);
            ("template_id", JString "tpl-x"); ("user_id", JString "u1")]
           "u1" "tpl-x" (JObject [])); reflexivity.
Defined.

(** C2. An input without a template id that supplies a context id,
    credentials and a name matching exactly one entry of the catalog
    resolves to the command with that entry's id. (Supplied means truthy,
    as the guard of the fallback tests it.) *)
Theorem fallback_unique_match
        (ts : list Template) (data : JsValue) (n : string) (t : Template) :
  getProp data "template_id" = JUndefined ->
  getProp data "name" = JString n -> n <> "" ->
  truthy (getProp data "user_id") = true ->
  truthy (getProp data "creds") = true ->
  filter (matches n) ts = [t] ->
  resolveDeploy ts data =
    Ok (JObject [("user_id", getProp data "user_id");
                 ("template_id", JString (id t));
                 ("creds", getProp data "creds")]).
Proof.
  intros Ht Hn Hne Hu Hc Hone.
  rewrite resolveDeploy_fallback.
  - rewrite Hn, find_string, (filter_single_first _ _ _ Hone). reflexivity.
  - unfold strictShape, Zod.safeParse, DeploySchema.
    destruct data; try reflexivity.
    cbn [Zod.shapeIssues Zod.fieldIssues].
    rewrite Ht.
    destruct (getProp (JObject props) "user_id"); reflexivity.
  - unfold fallbackShape. rewrite Hn, Hu, Hc. cbn [truthy].
    destruct (String.eqb_spec n ""); [contradiction|reflexivity].
Qed.

Lemma fallback_unique_match_witness :
  resolveDeploy
    [ mkTemplate "tpl-mongo" "MongoDB Server" None;
      mkTemplate "tpl-gpt" "Basic GPT Server" None ]
    (JObject [("user_id", JString "u1"); ("name", JString "gpt");
              ("creds", JObject [])])
  = Ok (JObject [("user_id", JString "u1"); ("template_id", JString "tpl-gpt");
                 ("creds", JObject [])]).
Proof.
  apply (fallback_unique_match
           [ mkTemplate "tpl-mongo" "MongoDB Server" None;
             mkTemplate "tpl-gpt" "Basic GPT Server" None ]
           (JObject [("user_id", JString "u1"); ("name", JString "gpt");
                     ("creds", JObject [])])
           "gpt" (mkTemplate "tpl-gpt" "Basic GPT Server" None));
    try reflexivity.
  discriminate.
Defined.

(** C3. On the fallback path, a name that matches no entry of the catalog
    makes the resolver fail with the error that names the searched
    string. *)
Theorem fallback_no_match
        (ts : list Template) (data : JsValue) (n : string) :
  strictShape data = false -> fallbackShape data = true ->
  getProp data "name" = JString n ->
  (forall t, In t ts -> matches n t = false) ->
  resolveDeploy ts data =
    Throw (Error ("No template found matching name: " ++ n)).
Proof.
  intros Hs Hf Hn Hnone.
  rewrite (resolveDeploy_fallback ts data Hs Hf), Hn, find_string.
  now rewrite (find_none _ _ Hnone).
Qed.

Lemma fallback_no_match_witness :
  resolveDeploy
    [ mkTemplate "tpl-mongo" "MongoDB Server" None;
      mkTemplate "tpl-gpt" "Basic GPT Server" None ]
    (JObject [("user_id", JString "u1"); ("name", JString "nonexistent");
              ("creds", JObject [])])
  = Throw (Error "No template found matching name: nonexistent").
Proof.
  apply (fallback_no_match
           [ mkTemplate "tpl-mongo" "MongoDB Server" None;
             mkTemplate "tpl-gpt" "Basic GPT Server" None ]
           (JObject [("user_id", JString "u1");
                     ("name", JString "nonexistent"); ("creds", JObject [])])
           "nonexistent"); try reflexivity.
  intros t [<-|[<-|[]]]; reflexivity.
Defined.

End Resolver.

(* ================================================================= *)
(** ** Validation errors and the handler around the resolver *)

Section Validation.

Import Nats.

(** When [DeploySchema] rejects an input, its issues are the violations
    the specification lists. *)
Lemma safeParse_failure_violations (data : JsValue) :
  strictShape data = false ->
  Zod.safeParse DeploySchema data = Zod.Failure (strictViolations data).
Proof.
  unfold strictShape, strictViolations, fieldViolation, Zod.safeParse,
    DeploySchema.
  intros Hs. destruct data as [| | | | | |props]; try reflexivity.
  cbn [Zod.shapeIssues Zod.fieldIssues] in *.
  destruct (getProp (JObject props) "user_id");
    destruct (getProp (JObject props) "template_id");
    cbn in *; try reflexivity; discriminate.
Qed.

Lemma strictViolations_nonempty (data : JsValue) :
  strictShape data = false -> strictViolations data <> [].
Proof.
  intros Hs Hnil.
  pose proof (safeParse_failure_violations data Hs) as H.
  rewrite Hnil in H.
  unfold Zod.safeParse in H.
  destruct data; try discriminate.
  destruct (Zod.shapeIssues DeploySchema (JObject props)); discriminate.
Qed.

(** What [find] throws is the [TypeError] of its callback. *)
Lemma find_throws (ts : list Template) (nm : JsValue) (e : Thrown) :
  Nats.find ts nm = Throw e ->
  e = TypeError "name.toLowerCase is not a function".
Proof.
  induction ts as [|t rest IH]; cbn [Nats.find]; [discriminate|].
  destruct nm; cbn [callToLowerCase]; try (now intros [= <-]).
  destruct (includes _ _); [discriminate|exact IH].
Qed.

(** The resolver never throws a [ZodError]: it reads the issues of
    [safeParse] and throws an [Error] of its own. *)
Lemma resolveDeploy_not_zod (ts : list Template) (data : JsValue)
      (e : Thrown) :
  resolveDeploy ts data = Throw e ->
  match e with ZodError _ => False | _ => True end.
Proof.
  unfold resolveDeploy.
  destruct (Zod.safeParse DeploySchema data); [discriminate|].
  destruct (_ || _); [now intros [= <-]|].
  destruct (Nats.find ts (getProp data "name")) as [[found|]|e'] eqn:Hf.
  - discriminate.
  - unfold templateString. destruct (toString _); now intros [= <-].
  - intros [= <-]. now rewrite (find_throws _ _ _ Hf).
Qed.

(** What a template literal throws is its [TypeError]. *)
Lemma templateString_throws (v : JsValue) (e : Thrown) :
  templateString v = Throw e ->
  e = TypeError "Cannot convert object to primitive value"
  /\ toString v = None.
Proof.
  unfold templateString. destruct (toString v); [discriminate|].
  now intros [= <-].
Qed.

Lemma deployAnswer_throws (body : JsValue) (e : Thrown) :
  deployAnswer body = Throw e ->
  e = TypeError "Cannot convert object to primitive value".
Proof.
  unfold deployAnswer.
  destruct (templateString (getProp body "user_id")) eqn:Hu.
  - destruct (templateString (getProp body "template_id")) eqn:Ht;
      [discriminate|].
    intros [= <-]. now apply templateString_throws in Ht.
  - intros [= <-]. now apply templateString_throws in Hu.
Qed.

(** A deploy call whose resolution fails: the error comes out of the
    handler and the connection is left as it was. *)
Lemma CallTool_deploy_throw (ts : list Template) (request : ToolRequestParams)
      (st : State) (e : Thrown) :
  tool request = "deploy" ->
  resolveDeploy ts (inputOf request) = Throw e ->
  CallTool ts request st =
    (Throw (match nats st with
            | None => Error "NATS connection not established"
            | Some _ =>
                if truthy (inputOf request) then e
                else Error "Missing deployment input (arguments or resource)"
            end), st).
Proof.
  intros Htool Hres. unfold CallTool.
  destruct (nats st) as [sent|]; [|reflexivity].
  rewrite Htool. cbn [String.eqb Ascii.eqb Bool.eqb].
  unfold catchZod, deploy.
  destruct (truthy (inputOf request)); cbn [negb]; [|reflexivity].
  unfold bind, lift. rewrite Hres.
  pose proof (resolveDeploy_not_zod _ _ _ Hres) as Hz.
  destruct e; try reflexivity. contradiction.
Qed.

(** A deploy call whose resolution succeeds: the command is published,
    once, and then the answer is made of its fields. *)
Lemma CallTool_deploy_ok (ts : list Template) (request : ToolRequestParams)
      (sent : list Published) (body : JsValue) :
  tool request = "deploy" ->
  truthy (inputOf request) = true ->
  resolveDeploy ts (inputOf request) = Ok body ->
  CallTool ts request (mkState (Some sent)) =
    (deployAnswer body,
     mkState (Some (sent ++ [mkPublished "deploy" body])%list)).
Proof.
  intros Htool Hdata Hres. unfold CallTool. cbn [nats].
  rewrite Htool. cbn [String.eqb Ascii.eqb Bool.eqb].
  unfold catchZod, deploy. rewrite Hdata. cbn [negb].
  unfold bind, lift, publish. rewrite Hres. cbn [nats].
  destruct (deployAnswer body) as [answer|e] eqn:Ha; [reflexivity|].
  now rewrite (deployAnswer_throws _ _ Ha).
Qed.

(** An input that passes the guard of the fallback is an object, hence
    truthy. *)
Lemma fallbackShape_truthy (data : JsValue) :
  fallbackShape data = true -> truthy data = true.
Proof.
  unfold fallbackShape. destruct data; cbn; try discriminate. reflexivity.
Qed.

(** C4. An input that has neither the strict shape nor what the fallback
    needs makes the resolver fail with the validation error that lists
    every violation of the strict shape, path and reason, all of them
    and not the first only. *)
Theorem validation_error_lists_all
        (ts : list Template) (data : JsValue) :
  strictShape data = false -> fallbackShape data = false ->
  resolveDeploy ts data =
    Throw (Error ("Invalid arguments: "
                    ++ join ", " (map Zod.formatIssue (strictViolations data))))
  /\ strictViolations data <> [].
Proof.
  intros Hs Hf. split; [|now apply strictViolations_nonempty].
  unfold resolveDeploy.
  rewrite (safeParse_failure_violations data Hs).
  unfold fallbackShape in Hf.
  destruct (truthy (getProp data "name")),
    (truthy (getProp data "user_id")),
    (truthy (getProp data "creds")); try discriminate; reflexivity.
Qed.

Lemma validation_error_lists_all_witness :
  resolveDeploy templates (JObject [("creds", JObject [])]) =
    Throw (Error "Invalid arguments: user_id: Required, template_id: Required")
  /\ strictViolations (JObject [("creds", JObject [])]) <> [].
Proof.
  apply (validation_error_lists_all templates (JObject [("creds", JObject [])]));
    reflexivity.
Defined.

(** C8. When several entries match the name, the fallback takes the first
    one in the order of the catalog; and two runs of the deploy tool, one
    after the other, give the same result and publish the same command. *)
Theorem fallback_first_match
        (pre post : list Template) (t : Template)
        (request : ToolRequestParams) (n : string) (sent : list Published) :
  tool request = "deploy" ->
  strictShape (inputOf request) = false ->
  fallbackShape (inputOf request) = true ->
  getProp (inputOf request) "name" = JString n ->
  (forall x, In x pre -> matches n x = false) ->
  matches n t = true ->
  let ts := (pre ++ t :: post)%list in
  let command := fallbackCommand (inputOf request) t in
  let run1 := CallTool ts request (mkState (Some sent)) in
  let run2 := CallTool ts request (snd run1) in
  resolveDeploy ts (inputOf request) = Ok command
  /\ fst run2 = fst run1
  /\ nats (snd run2) =
       Some (sent ++ [mkPublished "deploy" command;
                      mkPublished "deploy" command])%list.
Proof.
  intros Htool Hs Hf Hn Hpre Ht ts command run1 run2.
  assert (Hres : resolveDeploy ts (inputOf request) = Ok command).
  { rewrite (resolveDeploy_fallback ts _ Hs Hf), Hn, find_string.
    subst ts. now rewrite (find_first _ _ _ _ Hpre Ht). }
  pose proof (fallbackShape_truthy _ Hf) as Hd.
  split; [exact Hres|].
  subst run2 run1.
  rewrite (CallTool_deploy_ok ts request sent command Htool Hd Hres).
  cbn [snd fst].
  rewrite (CallTool_deploy_ok ts request _ command Htool Hd Hres).
  cbn [snd fst nats]. split; [reflexivity|].
  now rewrite <- app_assoc.
Qed.

Lemma fallback_first_match_witness :
  let request :=
    mkParams "deploy"
      (JObject [("user_id", JString "u1"); ("name", JString "SERVER");
                ("creds", JObject [])]) JUndefined in
  let command :=
    JObject [("user_id", JString "u1"); ("template_id", JString "tpl-mongo");
             ("creds", JObject [])] in
  let run1 := handler request (mkState (Some [])) in
  let run2 := handler request (snd run1) in
  resolveDeploy templates (inputOf request) = Ok command
  /\ fst run2 = fst run1
  /\ nats (snd run2) =
       Some [mkPublished "deploy" command; mkPublished "deploy" command].
Proof.
  apply (fallback_first_match []
           [ mkTemplate "tpl-gpt" "Basic GPT Server"
               (Some "A basic inference stack");
             mkTemplate "tpl-scraper" "Scraper + Storage"
               (Some "Web scraper with data sink") ]
           (mkTemplate "tpl-mongo" "MongoDB Server"
              (Some "Basic MongoDB stack"))
           (mkParams "deploy"
              (JObject [("user_id", JString "u1"); ("name", JString "SERVER");
                        ("creds", JObject [])]) JUndefined)
           "SERVER" []); try reflexivity.
  intros x [].
Defined.

(** Outside the fallback the specification describes: the guard tests
    that the name is truthy, not that it is a string, so with a catalog
    that is not empty a truthy name of another type makes the callback of
    [find] throw its [TypeError]. *)
Lemma fallback_name_not_string
      (t : Template) (ts : list Template) (data : JsValue) :
  strictShape data = false -> fallbackShape data = true ->
  (forall s, getProp data "name" <> JString s) ->
  resolveDeploy (t :: ts) data =
    Throw (TypeError "name.toLowerCase is not a function").
Proof.
  intros Hs Hf Hn.
  rewrite (resolveDeploy_fallback (t :: ts) data Hs Hf).
  cbn [Nats.find].
  destruct (getProp data "name"); try reflexivity.
  now destruct (Hn s).
Qed.

End Validation.

(* ================================================================= *)
(** ** Dispatch, in both variants *)

Section Dispatch.

(** A REST deploy call whose arguments [DeploySchema] rejects: the
    [ZodError] comes out and no request is sent. *)
Lemma rest_deploy_throw (api : Rest.Api) (request : Rest.ToolRequestParams)
      (log : Rest.State) (e : Thrown) :
  Rest.tool request = "deploy" ->
  zparse Rest.DeploySchema (Rest.arguments request) = Throw e ->
  Rest.handler api request log = (Throw e, log).
Proof.
  intros Htool Hparse. unfold Rest.handler. rewrite Htool.
  cbn [String.eqb Ascii.eqb Bool.eqb].
  unfold Rest.deploy, Rest.bind, Rest.lift. now rewrite Hparse.
Qed.

(** C5. A deploy call whose resolution fails dispatches nothing and
    fails itself. NATS variant: the handler throws the error of the
    resolver (or, before it, the error of the missing connection or of
    the missing input) and the connection has published nothing more.
    REST variant: the handler throws the [ZodError] and no request has
    been sent. *)
Theorem failed_resolution_dispatches_nothing
        (ts : list Nats.Template) (request : Nats.ToolRequestParams)
        (st : Nats.State) (e : Thrown)
        (api : Rest.Api) (rrequest : Rest.ToolRequestParams)
        (log : Rest.State) (e' : Thrown) :
  Nats.tool request = "deploy" ->
  Nats.resolveDeploy ts (Nats.inputOf request) = Throw e ->
  Rest.tool rrequest = "deploy" ->
  zparse Rest.DeploySchema (Rest.arguments rrequest) = Throw e' ->
  Nats.CallTool ts request st =
    (Throw (match Nats.nats st with
            | None => Error "NATS connection not established"
            | Some _ =>
                if truthy (Nats.inputOf request) then e
                else Error "Missing deployment input (arguments or resource)"
            end), st)
  /\ Rest.handler api rrequest log = (Throw e', log).
Proof.
  intros Htool Hres Hrtool Hparse. split.
  - now apply CallTool_deploy_throw.
  - now apply rest_deploy_throw.
Qed.

Lemma failed_resolution_dispatches_nothing_witness :
  Nats.handler
    (Nats.mkParams "deploy"
       (JObject [("user_id", JString "u1"); ("name", JString "nonexistent");
                 ("creds", JObject [])]) JUndefined)
    (Nats.mkState (Some []))
  = (Throw (Error "No template found matching name: nonexistent"),
     Nats.mkState (Some []))
  /\ Rest.handler (fun _ => Ok [])
       (Rest.mkParams "deploy" (JObject [("creds", JObject [])])) []
     = (Throw (ZodError [Zod.mkIssue ["template_id"] "Required"]), []).
Proof.
  apply (failed_resolution_dispatches_nothing
           Nats.templates
           (Nats.mkParams "deploy"
              (JObject [("user_id", JString "u1");
                        ("name", JString "nonexistent");
                        ("creds", JObject [])]) JUndefined)
           (Nats.mkState (Some []))
           (Error "No template found matching name: nonexistent")
           (fun _ => Ok [])
           (Rest.mkParams "deploy" (JObject [("creds", JObject [])])) []
           (ZodError [Zod.mkIssue ["template_id"] "Required"]));
    reflexivity.
Defined.

(** C6 does not hold in the REST variant: its [DeploySchema] has no
    context id, so a template id with credentials and no [user_id] is
    accepted and posted. *)
Lemma rest_deploy_needs_no_user_id :
  Rest.handler (fun _ => Ok [])
    (Rest.mkParams "deploy"
       (JObject [("template_id", JString "tpl-x"); ("creds", JObject [])])) []
  = (Ok (textResult "✅ Deployment triggered for template ID: tpl-x"),
     [Rest.Post "/api/servers"
        (JObject [("template_id", JString "tpl-x"); ("creds", JObject [])])]).
Proof. reflexivity. Qed.

(** C6, amended. In the NATS variant, a deploy input with an explicit
    template id and no [user_id] fails with the validation error that
    cites [user_id], and nothing is published. *)
Theorem nats_missing_user_id_rejected
        (ts : list Nats.Template) (props : list (string * JsValue))
        (t : string) (resource : JsValue) (sent : list Nats.Published) :
  lookup "user_id" props = None ->
  lookup "template_id" props = Some (JString t) ->
  Nats.CallTool ts (Nats.mkParams "deploy" (JObject props) resource)
    (Nats.mkState (Some sent))
  = (Throw (Error "Invalid arguments: user_id: Required"),
     Nats.mkState (Some sent)).
Proof.
  intros Hu Ht.
  apply (CallTool_deploy_throw ts
           (Nats.mkParams "deploy" (JObject props) resource)
           (Nats.mkState (Some sent))
           (Error "Invalid arguments: user_id: Required") eq_refl).
  cbn [Nats.inputOf Nats.arguments coalesce nullish].
  unfold Nats.resolveDeploy, Zod.safeParse, Nats.DeploySchema.
  cbn [Zod.shapeIssues Zod.fieldIssues getProp].
  rewrite Hu, Ht. cbn [app truthy negb].
  rewrite orb_true_r. reflexivity.
Qed.

Lemma nats_missing_user_id_rejected_witness :
  Nats.handler
    (Nats.mkParams "deploy"
       (JObject [("template_id", JString "tpl-x"); ("creds", JObject [])])
       JUndefined)
    (Nats.mkState (Some []))
  = (Throw (Error "Invalid arguments: user_id: Required"),
     Nats.mkState (Some [])).
Proof.
  apply (nats_missing_user_id_rejected Nats.templates
           [("template_id", JString "tpl-x"); ("creds", JObject [])]
           "tpl-x" JUndefined []); reflexivity.
Defined.

(** C7, at an input without [creds]: [z.any()] takes the absent key, so
    both variants accept the input on the strict path and dispatch a
    command that has no credentials. *)
Theorem absent_creds_accepted :
  Nats.handler
    (Nats.mkParams "deploy"
       (JObject [("user_id", JString "u1"); ("template_id", JString "tpl-x")])
       JUndefined)
    (Nats.mkState (Some []))
  = (Ok (textResult "Deploy event published for user u1 using template tpl-x"),
     Nats.mkState
       (Some [Nats.mkPublished "deploy"
                (JObject [("user_id", JString "u1");
                          ("template_id", JString "tpl-x")])]))
  /\ Rest.handler (fun _ => Ok [])
       (Rest.mkParams "deploy" (JObject [("template_id", JString "tpl-x")])) []
     = (Ok (textResult "✅ Deployment triggered for template ID: tpl-x"),
        [Rest.Post "/api/servers" (JObject [("template_id", JString "tpl-x")])]).
Proof. split; reflexivity. Qed.

End Dispatch.

(* ================================================================= *)
(** ** [list_templates] *)

Section Listing.

Lemma append_assoc (a b c : string) : (a ++ b) ++ c = a ++ b ++ c.
Proof. induction a as [|x a IH]; cbn; [reflexivity | now rewrite IH]. Qed.

(** The template literal of the REST variant is the three lines of the
    specification. *)
Lemma templateEntry_lines (t : Rest.Template) :
  Rest.templateEntry t = join LF (entryLines t).
Proof.
  unfold Rest.templateEntry, entryLines. cbn [join].
  now rewrite !append_assoc.
Qed.

Lemma templateEntry_not_empty (t : Rest.Template) :
  String.eqb (Rest.templateEntry t) "" = false.
Proof. reflexivity. Qed.

(** Joining entries of which the first is not empty gives a text that is
    not empty: the [||] of [list_templates] keeps it. *)
Lemma join_not_empty (sep x : string) (rest : list string) :
  String.eqb x "" = false -> String.eqb (join sep (x :: rest)) "" = false.
Proof.
  intros Hx. destruct x as [|c x]; [discriminate|].
  destruct rest; reflexivity.
Qed.

Lemma templatesText_cons (t : Rest.Template) (rest : list Rest.Template) :
  Rest.templatesText (t :: rest) =
    join (LF ++ LF) (map Rest.templateEntry (t :: rest)).
Proof.
  unfold Rest.templatesText, orElse. cbn [map].
  now rewrite (join_not_empty _ _ _ (templateEntry_not_empty t)).
Qed.

(** C9 does not hold in the NATS variant: its [list_templates] gives
    one line per template, [name (id)] and the description; no line of
    it says [Type:] or [Fields:]. *)
Lemma nats_list_templates_one_line_each :
  Nats.handler (Nats.mkParams "list_templates" JUndefined JUndefined)
    (Nats.mkState (Some []))
  = (Ok (textResult
           (join LF
              [ "• MongoDB Server (tpl-mongo) – Basic MongoDB stack";
                "• Basic GPT Server (tpl-gpt) – A basic inference stack";
                "• Scraper + Storage (tpl-scraper) – Web scraper with data sink" ])),
     Nats.mkState (Some []))
  /\ includes
       (join LF
          [ "• MongoDB Server (tpl-mongo) – Basic MongoDB stack";
            "• Basic GPT Server (tpl-gpt) – A basic inference stack";
            "• Scraper + Storage (tpl-scraper) – Web scraper with data sink" ])
       "Type:" = false
  /\ includes
       (join LF
          [ "• MongoDB Server (tpl-mongo) – Basic MongoDB stack";
            "• Basic GPT Server (tpl-gpt) – A basic inference stack";
            "• Scraper + Storage (tpl-scraper) – Web scraper with data sink" ])
       "Fields:" = false.
Proof. repeat split; vm_compute; reflexivity. Qed.

(** C9, amended. REST variant: for every list of templates the API
    returns, [list_templates] answers ["No templates found."] when the
    list is empty and otherwise the entries, each the three lines
    [name (id)], [Type: ...] and [Fields: ...], with a blank line
    between entries. NATS variant: the three hardcoded templates, one
    line each, [name (id)] and the description. *)
Theorem list_templates_text
        (api : Rest.Api) (items : list Rest.Template) (args : JsValue)
        (log : Rest.State) (sent : list Nats.Published)
        (resource : JsValue) :
  api (Rest.Get "/api/templates") = Ok items ->
  Rest.handler api (Rest.mkParams "list_templates" args) log =
    (Ok (textResult
           match items with
           | [] => "No templates found."
           | _ => join (LF ++ LF) (map (fun t => join LF (entryLines t)) items)
           end),
     (log ++ [Rest.Get "/api/templates"])%list)
  /\ Nats.handler (Nats.mkParams "list_templates" args resource)
       (Nats.mkState (Some sent))
     = (Ok (textResult
              (join LF
                 [ "• MongoDB Server (tpl-mongo) – Basic MongoDB stack";
                   "• Basic GPT Server (tpl-gpt) – A basic inference stack";
                   "• Scraper + Storage (tpl-scraper) – Web scraper with data sink" ])),
        Nats.mkState (Some sent)).
Proof.
  intros Hapi. split; [|reflexivity].
  unfold Rest.handler. cbn [Rest.tool String.eqb Ascii.eqb Bool.eqb].
  unfold Rest.list_templates, Rest.bind, Rest.send, Rest.ret.
  rewrite Hapi. do 3 f_equal.
  destruct items as [|t rest]; [reflexivity|].
  rewrite templatesText_cons. f_equal.
  apply map_ext. intros x. apply templateEntry_lines.
Qed.

Lemma list_templates_text_witness :
  Rest.handler
    (fun _ => Ok [Rest.mkTemplate "t1" "Mongo" "/m" ["user"; "password"]
                    "database" (Some "nosql") true false None "2024" None])
    (Rest.mkParams "list_templates" JUndefined) []
  = (Ok (textResult
           (join LF ["• Mongo (t1)"; "  Type: database / nosql";
                     "  Fields: user, password"])),
     [Rest.Get "/api/templates"]).
Proof.
  apply (list_templates_text
           (fun _ => Ok [Rest.mkTemplate "t1" "Mongo" "/m" ["user"; "password"]
                           "database" (Some "nosql") true false None "2024"
                           None])
           [Rest.mkTemplate "t1" "Mongo" "/m" ["user"; "password"]
              "database" (Some "nosql") true false None "2024" None]
           JUndefined [] [] JUndefined).
  reflexivity.
Defined.

End Listing.

(* ================================================================= *)
(** ** Where the NATS tools take their input from *)

Section InputSelection.

Import Nats.

(** The input of a request is its [arguments], or the attributes of its
    resource when there are no arguments. *)
Lemma inputOf_arguments (request : ToolRequestParams) :
  nullish (arguments request) = false ->
  inputOf request = arguments request.
Proof. unfold inputOf, coalesce. now intros ->. Qed.

Lemma inputOf_resource (request : ToolRequestParams) :
  nullish (arguments request) = true ->
  inputOf request = optChain (resource request) "attributes".
Proof. unfold inputOf, coalesce. now intros ->. Qed.

(** The deploy and delete tools see a request through [inputOf] only. *)
Lemma CallTool_same_input (ts : list Template)
      (r1 r2 : ToolRequestParams) (st : State) :
  tool r1 = tool r2 ->
  tool r1 = "deploy" \/ tool r1 = "delete" ->
  inputOf r1 = inputOf r2 ->
  CallTool ts r1 st = CallTool ts r2 st.
Proof.
  intros Htool Hwhich Hin. unfold CallTool.
  destruct (nats st); [|reflexivity].
  rewrite <- Htool.
  destruct Hwhich as [H|H]; rewrite H; cbn [String.eqb Ascii.eqb Bool.eqb];
    unfold deploy, delete; now rewrite Hin.
Qed.

Lemma nullish_not_truthy (v : JsValue) : nullish v = true -> truthy v = false.
Proof. destruct v; cbn; congruence. Qed.

End InputSelection.

(* ================================================================= *)
(** ** Strings: substrings and letter case *)

Section Strings.

Lemma prefix_app (a b : string) :
  String.prefix a b = true <-> exists post, b = a ++ post.
Proof.
  revert a. induction b as [|y b IH]; intros [|x a]; cbn [String.prefix].
  - split; [intros _; now exists "" | reflexivity].
  - split; [discriminate | intros [post H]; discriminate].
  - split; [intros _; now exists (String y b) | reflexivity].
  - destruct (ascii_dec x y) as [->|Hxy].
    + rewrite IH. split; intros [post H]; exists post.
      * cbn. now rewrite H.
      * cbn in H. now injection H.
    + split; [discriminate|]. intros [post H]. cbn in H.
      injection H as H1 _. now destruct Hxy.
Qed.

Lemma includes_unfold (s sub : string) :
  includes s sub =
    if String.prefix sub s then true
    else match s with
         | EmptyString => false
         | String _ rest => includes rest sub
         end.
Proof. destruct s; reflexivity. Qed.

(** [includes] is the substring test: [sub] sits in [s] between some
    [pre] and some [post]. *)
Lemma includes_app (s sub : string) :
  includes s sub = true <-> exists pre post, s = pre ++ sub ++ post.
Proof.
  split.
  - induction s as [|c s IH]; rewrite includes_unfold;
      destruct (String.prefix sub _) eqn:Hp.
    + intros _. apply prefix_app in Hp as [post H]. now exists "", post.
    + discriminate.
    + intros _. apply prefix_app in Hp as [post H]. now exists "", post.
    + intros H. destruct (IH H) as (pre & post & ->).
      now exists (String c pre), post.
  - intros (pre & post & ->). induction pre as [|c pre IH].
    + rewrite includes_unfold.
      assert (Hp : String.prefix sub ("" ++ sub ++ post) = true)
        by (apply prefix_app; now exists post).
      now rewrite Hp.
    + rewrite includes_unfold.
      destruct (String.prefix sub _); [reflexivity|exact IH].
Qed.

Lemma toLowerCase_app (a b : string) :
  toLowerCase (a ++ b) = toLowerCase a ++ toLowerCase b.
Proof. induction a as [|c a IH]; cbn; [reflexivity | now rewrite IH]. Qed.

Lemma lowerAscii_idempotent (c : ascii) :
  lowerAscii (lowerAscii c) = lowerAscii c.
Proof.
  destruct c as [[] [] [] [] [] [] [] []]; vm_compute; reflexivity.
Qed.

Lemma toLowerCase_idempotent (s : string) :
  toLowerCase (toLowerCase s) = toLowerCase s.
Proof.
  induction s as [|c s IH]; cbn; [reflexivity|].
  now rewrite lowerAscii_idempotent, IH.
Qed.

End Strings.

(* ================================================================= *)
(** ** What a schema lets through *)

Section Schemas.

(** A read of the parsed object: the keys of the shape read as in the
    input, every other key is gone. *)
Lemma lookup_shapeOutput (shape : Zod.ZodObject)
      (props : list (string * JsValue)) (k : string) :
  lookup k (Zod.shapeOutput shape props) =
    if hasKey k shape then lookup k props else None.
Proof.
  induction shape as [|[key f] rest IH]; [reflexivity|].
  cbn [Zod.shapeOutput hasKey existsb fst].
  destruct (lookup key props) as [v|] eqn:Hkey.
  - cbn [lookup]. destruct (String.eqb_spec key k) as [->|Hne].
    + now rewrite Hkey.
    + exact IH.
  - rewrite IH. destruct (String.eqb_spec key k) as [->|Hne].
    + cbn [orb]. rewrite Hkey. now destruct (hasKey k rest).
    + reflexivity.
Qed.

Lemma shapeIssues_same_reads (sh : Zod.ZodObject) (d1 d2 : JsValue) :
  (forall k f, In (k, f) sh -> getProp d1 k = getProp d2 k) ->
  Zod.shapeIssues sh d1 = Zod.shapeIssues sh d2.
Proof.
  induction sh as [|[key f] rest IH]; intros H; [reflexivity|].
  cbn [Zod.shapeIssues].
  rewrite (H key f (or_introl eq_refl)), IH; [reflexivity|].
  intros k g Hin. apply (H k g). now right.
Qed.

Lemma hasKey_In (shape : Zod.ZodObject) (k : string) (f : Zod.ZodField) :
  In (k, f) shape -> hasKey k shape = true.
Proof.
  intros Hin. apply existsb_exists. exists (k, f).
  split; [exact Hin | apply String.eqb_refl].
Qed.

Lemma shapeOutput_again (shape sh : Zod.ZodObject)
      (props : list (string * JsValue)) :
  incl sh shape ->
  Zod.shapeOutput sh (Zod.shapeOutput shape props) = Zod.shapeOutput sh props.
Proof.
  induction sh as [|[key f] rest IH]; intros Hincl; [reflexivity|].
  cbn [Zod.shapeOutput].
  rewrite lookup_shapeOutput, (hasKey_In shape key f).
  - rewrite IH; [reflexivity|].
    intros x Hx. apply Hincl. now right.
  - apply Hincl. now left.
Qed.

(** Parsing is idempotent: what a schema has parsed, it parses again to
    the same object. *)
Lemma safeParse_again (shape : Zod.ZodObject) (data out : JsValue) :
  Zod.safeParse shape data = Zod.Success out ->
  Zod.safeParse shape out = Zod.Success out.
Proof.
  unfold Zod.safeParse. destruct data as [| | | | | |props]; try discriminate.
  destruct (Zod.shapeIssues shape (JObject props)) eqn:Hissues;
    [|discriminate].
  intros [= <-].
  rewrite (shapeIssues_same_reads shape _ (JObject props)).
  - rewrite Hissues, shapeOutput_again; [reflexivity | apply incl_refl].
  - intros k f Hin. cbn [getProp].
    now rewrite lookup_shapeOutput, (hasKey_In shape k f Hin).
Qed.

End Schemas.

(* ================================================================= *)
(** ** The NATS handler, tool by tool *)

Section NatsCalls.

Import Nats.

(** What the resolver throws: an [Error]; or, on a catalog that is not
    empty, the [TypeError] of a name that is truthy and not a string,
    met by the callback of [find]; or, on the empty catalog, the
    [TypeError] of a name that the message of the missing template
    cannot show. *)
Lemma resolveDeploy_throws (ts : list Template) (data : JsValue)
      (e : Thrown) :
  resolveDeploy ts data = Throw e ->
  (exists msg, e = Error msg)
  \/ (strictShape data = false
      /\ ((e = TypeError "name.toLowerCase is not a function"
           /\ truthy (getProp data "name") = true
           /\ (forall s, getProp data "name" <> JString s)
           /\ ts <> [])
          \/ (e = TypeError "Cannot convert object to primitive value"
              /\ toString (getProp data "name") = None
              /\ ts = []))).
Proof.
  unfold resolveDeploy, strictShape.
  destruct (Zod.safeParse DeploySchema data); [discriminate|].
  destruct (truthy (getProp data "name")) eqn:Hn; cbn [negb orb];
    [|intros [= <-]; left; eauto].
  destruct (_ || _); [intros [= <-]; left; eauto|].
  destruct (Nats.find ts (getProp data "name")) as [[found|]|e'] eqn:Hf.
  - discriminate.
  - destruct (templateString (getProp data "name")) as [shown|e'] eqn:Hshow;
      intros [= <-]; [left; eauto|].
    right. split; [reflexivity|]. right.
    apply templateString_throws in Hshow as [-> Hnone].
    split; [reflexivity|]. split; [exact Hnone|].
    destruct ts as [|t rest]; [reflexivity|].
    cbn [Nats.find] in Hf.
    destruct (getProp data "name"); cbn in Hnone, Hf; discriminate.
  - intros [= <-]. right. split; [reflexivity|]. left.
    rewrite (find_throws _ _ _ Hf). split; [reflexivity|].
    split; [reflexivity|]. split.
    + intros s Hs. rewrite Hs, find_string in Hf. discriminate.
    + intros ->. discriminate.
Qed.

(** A resolved command comes from one of the two paths: the parsed
    input, whose ids are strings, or the command of the fallback for an
    entry of the catalog. *)
Lemma resolveDeploy_ok_cases (ts : list Template) (data body : JsValue) :
  resolveDeploy ts data = Ok body ->
  (strictShape data = true
   /\ exists u t, getProp body "user_id" = JString u
                /\ getProp body "template_id" = JString t)
  \/ (strictShape data = false
      /\ exists t, In t ts /\ body = fallbackCommand data t).
Proof.
  unfold resolveDeploy, strictShape.
  destruct (Zod.safeParse DeploySchema data) as [parsed|errors] eqn:Hp.
  - intros [= <-]. left. split; [reflexivity|].
    unfold Zod.safeParse in Hp.
    destruct data as [| | | | | |props]; try discriminate.
    destruct (Zod.shapeIssues DeploySchema (JObject props)) eqn:Hi;
      [|discriminate].
    injection Hp as <-. revert Hi. unfold DeploySchema.
    cbn [Zod.shapeIssues Zod.shapeOutput Zod.fieldIssues getProp].
    destruct (lookup "user_id" props) as [[| | | |u| |]|]; cbn;
      try discriminate;
      destruct (lookup "template_id" props) as [[| | | |t| |]|]; cbn;
      try discriminate.
    intros _. now exists u, t.
  - destruct (_ || _); [discriminate|].
    destruct (Nats.find ts (getProp data "name")) as [[found|]|e'] eqn:Hf.
    + intros [= <-]. right. split; [reflexivity|]. exists found.
      split; [|reflexivity].
      destruct (getProp data "name") as [| | | |n| |];
        try (destruct ts; cbn [Nats.find callToLowerCase] in Hf; discriminate).
      rewrite find_string in Hf. injection Hf as Hf.
      now apply find_some in Hf.
    + destruct (templateString _); discriminate.
    + discriminate.
Qed.

(** What [DeleteSchema] lets through is the object of a string
    [server_id]. *)
Lemma safeParse_delete_success (data body : JsValue) :
  Zod.safeParse DeleteSchema data = Zod.Success body ->
  exists s, body = JObject [("server_id", JString s)].
Proof.
  unfold Zod.safeParse, DeleteSchema.
  destruct data as [| | | | | |props]; try discriminate.
  cbn [Zod.shapeIssues Zod.shapeOutput Zod.fieldIssues getProp].
  destruct (lookup "server_id" props) as [[| | | |s| |]|]; cbn;
    try discriminate.
  intros [= <-]. now exists s.
Qed.

(** The delete tool on a connected server. *)
Lemma CallTool_delete (ts : list Template) (request : ToolRequestParams)
      (sent : list Published) :
  tool request = "delete" ->
  CallTool ts request (mkState (Some sent)) =
    if truthy (inputOf request) then
      match Zod.safeParse DeleteSchema (inputOf request) with
      | Zod.Success body =>
          (deleteAnswer body,
           mkState (Some (sent ++ [mkPublished "delete" body])%list))
      | Zod.Failure errors =>
          (Throw (Error ("Invalid arguments: " ++ Zod.formatIssues errors)),
           mkState (Some sent))
      end
    else (Throw (Error "Missing deletion input (arguments or resource)"),
          mkState (Some sent)).
Proof.
  intros Htool. unfold CallTool. cbn [nats]. rewrite Htool.
  cbn [String.eqb Ascii.eqb Bool.eqb].
  unfold catchZod, delete.
  destruct (truthy (inputOf request)); cbn [negb]; [|reflexivity].
  unfold bind, lift, zparse, publish.
  destruct (Zod.safeParse DeleteSchema (inputOf request)); [|reflexivity].
  cbn [nats]. unfold deleteAnswer, templateString.
  destruct (toString _); reflexivity.
Qed.

(** The tools that are neither deploy nor delete. *)
Lemma CallTool_other (ts : list Template) (request : ToolRequestParams)
      (sent : list Published) :
  tool request <> "deploy" -> tool request <> "delete" ->
  CallTool ts request (mkState (Some sent)) =
    if String.eqb (tool request) "list_templates"
    then (Ok (textResult (join LF (map templateLine ts))), mkState (Some sent))
    else (Throw (Error ("Unknown tool: " ++ tool request)), mkState (Some sent)).
Proof.
  intros Hd Hx. unfold CallTool. cbn [nats].
  apply String.eqb_neq in Hd, Hx. rewrite Hd, Hx.
  destruct (String.eqb (tool request) "list_templates"); reflexivity.
Qed.

(** X1. One call publishes at most one message, on the subject of its tool,
    behind what was published before; neither the message nor the answer
    depends on what was published before. *)
Theorem nats_call_publishes_at_most_once
        (ts : list Template) (request : ToolRequestParams) :
  exists (answer : Result CallToolResult) (out : list Published),
    (length out <= 1)%nat
    /\ (forall m, In m out -> subject m = tool request)
    /\ forall sent,
         CallTool ts request (mkState (Some sent)) =
           (answer, mkState (Some (sent ++ out)%list)).
Proof.
  destruct (string_dec (tool request) "deploy") as [Hd|Hd].
  - destruct (resolveDeploy ts (inputOf request)) as [body|e] eqn:Hres.
    + destruct (truthy (inputOf request)) eqn:Hdata.
      * eexists _, [mkPublished "deploy" body]. split; [cbn; auto|].
        split; [intros m [<-|[]]; now rewrite Hd|].
        intros sent. now apply CallTool_deploy_ok.
      * eexists _, []. split; [cbn; auto|]. split; [intros m []|].
        intros sent. unfold CallTool. cbn [nats]. rewrite Hd.
        cbn [String.eqb Ascii.eqb Bool.eqb]. unfold catchZod, deploy.
        rewrite Hdata, app_nil_r. reflexivity.
    + exists (Throw
                (if truthy (inputOf request) then e
                 else Error "Missing deployment input (arguments or resource)")),
        [].
      split; [cbn; auto|]. split; [intros m []|].
      intros sent. rewrite app_nil_r.
      rewrite (CallTool_deploy_throw ts request _ e Hd Hres). reflexivity.
  - destruct (string_dec (tool request) "delete") as [Hx|Hx].
    + destruct (truthy (inputOf request)) eqn:Hdata;
        [destruct (Zod.safeParse DeleteSchema (inputOf request))
           as [body|errors] eqn:Hp|].
      * eexists _, [mkPublished "delete" body]. split; [cbn; auto|].
        split; [intros m [<-|[]]; now rewrite Hx|].
        intros sent. rewrite (CallTool_delete ts request sent Hx), Hdata, Hp.
        reflexivity.
      * eexists _, []. split; [cbn; auto|]. split; [intros m []|].
        intros sent. rewrite (CallTool_delete ts request sent Hx), Hdata, Hp.
        now rewrite app_nil_r.
      * eexists _, []. split; [cbn; auto|]. split; [intros m []|].
        intros sent. rewrite (CallTool_delete ts request sent Hx), Hdata.
        now rewrite app_nil_r.
    + destruct (String.eqb (tool request) "list_templates") eqn:Hl;
        eexists _, []; (split; [cbn; auto|]); (split; [intros m []|]);
        intros sent; rewrite (CallTool_other ts request sent Hd Hx), Hl;
        rewrite app_nil_r; reflexivity.
Qed.

End NatsCalls.

Section NatsErrors.

Import Nats.

(** X2. Whatever the NATS handler throws is an [Error] with a message (a
    [ZodError] never leaves it), except in three cases of the deploy
    tool on its fallback path: a name that is truthy and not a string,
    on a catalog that is not empty, throws the [TypeError] of
    [name.toLowerCase]; on the empty catalog, a name that the message of
    the missing template cannot show throws the [TypeError] of the
    conversion; and a [user_id] that the confirmation cannot show throws
    that [TypeError] after the command has been published. *)
Theorem nats_thrown_values
        (ts : list Template) (request : ToolRequestParams) (st : State)
        (e : Thrown) :
  fst (CallTool ts request st) = Throw e ->
  (exists msg, e = Error msg)
  \/ (tool request = "deploy"
      /\ strictShape (inputOf request) = false
      /\ ((e = TypeError "name.toLowerCase is not a function"
           /\ truthy (getProp (inputOf request) "name") = true
           /\ (forall s, getProp (inputOf request) "name" <> JString s)
           /\ ts <> [])
          \/ (e = TypeError "Cannot convert object to primitive value"
              /\ toString (getProp (inputOf request) "name") = None
              /\ ts = [])
          \/ (e = TypeError "Cannot convert object to primitive value"
              /\ toString (getProp (inputOf request) "user_id") = None
              /\ exists sent t,
                   In t ts
                   /\ st = mkState (Some sent)
                   /\ snd (CallTool ts request st) =
                        mkState
                          (Some (sent ++
                                 [mkPublished "deploy"
                                    (fallbackCommand (inputOf request) t)])%list)))).
Proof.
  destruct st as [[sent|]]; [|intros [= <-]; left; eauto].
  destruct (string_dec (tool request) "deploy") as [Hd|Hd].
  - destruct (resolveDeploy ts (inputOf request)) as [body|e0] eqn:Hres.
    + destruct (truthy (inputOf request)) eqn:Hdata.
      * rewrite (CallTool_deploy_ok ts request sent body Hd Hdata Hres).
        cbn [fst snd]. intros Ha.
        destruct (resolveDeploy_ok_cases ts _ _ Hres)
          as [(Hs & u & t & Hu & Ht)|(Hs & t & Hin & ->)].
        -- revert Ha. unfold deployAnswer, templateString.
           rewrite Hu, Ht. discriminate.
        -- right. split; [exact Hd|]. split; [exact Hs|]. right. right.
           revert Ha. unfold deployAnswer, templateString, fallbackCommand.
           cbn [getProp lookup String.eqb Ascii.eqb Bool.eqb toString].
           destruct (toString (getProp (inputOf request) "user_id"));
             [discriminate|].
           intros [= <-]. split; [reflexivity|]. split; [reflexivity|].
           now exists sent, t.
      * unfold CallTool. cbn [nats]. rewrite Hd.
        cbn [String.eqb Ascii.eqb Bool.eqb]. unfold catchZod, deploy.
        rewrite Hdata. intros [= <-]. left. eauto.
    + rewrite (CallTool_deploy_throw ts request _ e0 Hd Hres). cbn [nats fst].
      destruct (truthy (inputOf request)); [|intros [= <-]; left; eauto].
      intros [= <-].
      destruct (resolveDeploy_throws ts _ e0 Hres) as [H|[Hs H]];
        [now left|].
      right. split; [exact Hd|]. split; [exact Hs|].
      destruct H as [H|H]; [now left | right; now left].
  - destruct (string_dec (tool request) "delete") as [Hx|Hx].
    + rewrite (CallTool_delete ts request sent Hx).
      destruct (truthy (inputOf request));
        [destruct (Zod.safeParse DeleteSchema (inputOf request))
           as [body|errors] eqn:Hp|];
        cbn [fst]; try (intros [= <-]; left; eauto).
      destruct (safeParse_delete_success _ _ Hp) as [s ->]. discriminate.
    + rewrite (CallTool_other ts request sent Hd Hx).
      destruct (String.eqb (tool request) "list_templates"); cbn [fst];
        try discriminate; intros [= <-]; left; eauto.
Qed.

Lemma nats_thrown_values_witness :
  let request :=
    mkParams "deploy"
      (JObject [("user_id", JObject [("toString", JNull)]);
                ("name", JString "gpt"); ("creds", JObject [])]) JUndefined in
  handler request (mkState (Some []))
  = (Throw (TypeError "Cannot convert object to primitive value"),
     mkState
       (Some [mkPublished "deploy"
                (JObject [("user_id", JObject [("toString", JNull)]);
                          ("template_id", JString "tpl-gpt");
                          ("creds", JObject [])])]))
  /\ ((exists msg,
         TypeError "Cannot convert object to primitive value" = Error msg)
      \/ (tool request = "deploy"
          /\ strictShape (inputOf request) = false
          /\ ((TypeError "Cannot convert object to primitive value"
                 = TypeError "name.toLowerCase is not a function"
               /\ truthy (getProp (inputOf request) "name") = true
               /\ (forall s, getProp (inputOf request) "name" <> JString s)
               /\ templates <> [])
              \/ (TypeError "Cannot convert object to primitive value"
                    = TypeError "Cannot convert object to primitive value"
                  /\ toString (getProp (inputOf request) "name") = None
                  /\ templates = [])
              \/ (TypeError "Cannot convert object to primitive value"
                    = TypeError "Cannot convert object to primitive value"
                  /\ toString (getProp (inputOf request) "user_id") = None
                  /\ exists sent t,
                       In t templates
                       /\ mkState (Some []) = mkState (Some sent)
                       /\ snd (CallTool templates request (mkState (Some []))) =
                            mkState
                              (Some (sent ++
                                     [mkPublished "deploy"
                                        (fallbackCommand (inputOf request) t)])%list))))).
Proof.
  split; [reflexivity|].
  apply (nats_thrown_values templates
           (mkParams "deploy"
              (JObject [("user_id", JObject [("toString", JNull)]);
                        ("name", JString "gpt"); ("creds", JObject [])])
              JUndefined)
           (mkState (Some []))
           (TypeError "Cannot convert object to primitive value")).
  reflexivity.
Defined.

(** X3. A delete call on an object whose [server_id] is a string publishes,
    on the subject [delete], the object reduced to its [server_id], and
    confirms with the id. *)
Theorem nats_delete_publishes_server_id
        (ts : list Template) (request : ToolRequestParams)
        (props : list (string * JsValue)) (s : string)
        (sent : list Published) :
  tool request = "delete" ->
  inputOf request = JObject props ->
  lookup "server_id" props = Some (JString s) ->
  CallTool ts request (mkState (Some sent)) =
    (Ok (textResult ("Delete event published for server " ++ s)),
     mkState
       (Some (sent ++ [mkPublished "delete"
                         (JObject [("server_id", JString s)])])%list)).
Proof.
  intros Htool Hin Hs.
  rewrite (CallTool_delete ts request sent Htool), Hin. cbn [truthy].
  unfold Zod.safeParse, DeleteSchema.
  cbn [Zod.shapeIssues Zod.shapeOutput Zod.fieldIssues getProp].
  rewrite Hs. reflexivity.
Qed.

Lemma nats_delete_publishes_server_id_witness :
  handler
    (mkParams "delete"
       (JObject [("force", JBool true); ("server_id", JString "srv-1")])
       JUndefined)
    (mkState (Some []))
  = (Ok (textResult "Delete event published for server srv-1"),
     mkState
       (Some [mkPublished "delete" (JObject [("server_id", JString "srv-1")])])).
Proof.
  apply (nats_delete_publishes_server_id templates
           (mkParams "delete"
              (JObject [("force", JBool true); ("server_id", JString "srv-1")])
              JUndefined)
           [("force", JBool true); ("server_id", JString "srv-1")]
           "srv-1" []); reflexivity.
Defined.

(** X4. A delete call on an object whose [server_id] is missing or not a
    string fails with the [Error] the handler makes of the [ZodError],
    and publishes nothing. *)
Theorem nats_delete_rejects_bad_server_id
        (ts : list Template) (request : ToolRequestParams)
        (props : list (string * JsValue)) (sent : list Published) :
  tool request = "delete" ->
  inputOf request = JObject props ->
  (forall s, lookup "server_id" props <> Some (JString s)) ->
  CallTool ts request (mkState (Some sent)) =
    (Throw (Error
              ("Invalid arguments: server_id: "
                 ++ match lookup "server_id" props with
                    | None | Some JUndefined => "Required"
                    | Some v => "Expected string, received " ++ Zod.parsedType v
                    end)),
     mkState (Some sent)).
Proof.
  intros Htool Hin Hs.
  rewrite (CallTool_delete ts request sent Htool), Hin. cbn [truthy].
  unfold Zod.safeParse, DeleteSchema.
  cbn [Zod.shapeIssues Zod.fieldIssues getProp].
  destruct (lookup "server_id" props) as [[| | | | s | |]|];
    try reflexivity.
  now destruct (Hs s).
Qed.

Lemma nats_delete_rejects_bad_server_id_witness :
  handler (mkParams "delete" (JObject [("server_id", JNumber 7)]) JUndefined)
    (mkState (Some []))
  = (Throw (Error
              "Invalid arguments: server_id: Expected string, received number"),
     mkState (Some [])).
Proof.
  apply (nats_delete_rejects_bad_server_id templates
           (mkParams "delete" (JObject [("server_id", JNumber 7)]) JUndefined)
           [("server_id", JNumber 7)] []); try reflexivity.
  intros s. discriminate.
Defined.

(** X5. On a connected server, the handler answers [Unknown tool] exactly
    for the names that the tool listing does not have; it publishes
    nothing for them. *)
Theorem nats_unknown_tool_iff_unlisted
        (ts : list Template) (request : ToolRequestParams)
        (sent : list Published) :
  CallTool ts request (mkState (Some sent)) =
    (Throw (Error ("Unknown tool: " ++ tool request)), mkState (Some sent))
  <-> ~ In (tool request) (map Listing.name Listing.natsTools).
Proof.
  cbn [map Listing.name Listing.natsTools In].
  destruct (string_dec (tool request) "deploy") as [Hd|Hd].
  - split; [|intros H; destruct H; auto].
    intros H _.
    destruct (resolveDeploy ts (inputOf request)) as [body|e0] eqn:Hres.
    + destruct (truthy (inputOf request)) eqn:Hdata.
      * rewrite (CallTool_deploy_ok ts request sent body Hd Hdata Hres) in H.
        injection H as H _. apply deployAnswer_throws in H. discriminate.
      * revert H. unfold CallTool. cbn [nats]. rewrite Hd.
        cbn [String.eqb Ascii.eqb Bool.eqb]. unfold catchZod, deploy.
        rewrite Hdata. discriminate.
    + rewrite (CallTool_deploy_throw ts request _ e0 Hd Hres), Hd in H.
      cbn [nats] in H.
      destruct (truthy (inputOf request)); [|discriminate].
      injection H as ->. revert Hres. unfold resolveDeploy.
      destruct (Zod.safeParse DeploySchema (inputOf request)); [discriminate|].
      destruct (_ || _); [discriminate|].
      destruct (Nats.find ts _) as [[found|]|e'] eqn:Hf; [discriminate| |].
      * destruct (templateString _) as [shown|e'] eqn:Hshow; [discriminate|].
        intros [= ->]. apply templateString_throws in Hshow as [Hshow _].
        discriminate.
      * intros [= ->]. apply find_throws in Hf. discriminate.
  - destruct (string_dec (tool request) "delete") as [Hx|Hx].
    + split; [|intros H; destruct H; auto].
      intros H _. rewrite (CallTool_delete ts request sent Hx), Hx in H.
      destruct (truthy (inputOf request));
        [destruct (Zod.safeParse DeleteSchema (inputOf request))
           as [body|errors] eqn:Hp|];
        try discriminate.
      destruct (safeParse_delete_success _ _ Hp) as [s ->]. discriminate.
    + rewrite (CallTool_other ts request sent Hd Hx).
      destruct (String.eqb_spec (tool request) "list_templates") as [Hl|Hl].
      * split; [discriminate | intros H; destruct H; auto].
      * split; [|reflexivity]. intros _ [H|[H|[H|[]]]]; congruence.
Qed.

End NatsErrors.

(* ================================================================= *)
(** ** The input the NATS tools work on *)

Section InputRead.

Import Nats.

(** C10. On a connected server, the deploy and delete tools of the NATS
    variant work on [arguments] when the request has them, whatever its
    resource is; without [arguments] they work on the [attributes] of
    the resource; without both they fail with the error of the missing
    input and publish nothing. Working on an input means: the deploy
    tool resolves it, publishes the command and answers, or throws what
    the resolver throws; the delete tool parses it with [DeleteSchema],
    publishes the parsed object and answers, or throws the error made
    of the issues. *)
Theorem nats_input_selection
        (ts : list Template) (request : ToolRequestParams)
        (sent : list Published) :
  tool request = "deploy" \/ tool request = "delete" ->
  let st := mkState (Some sent) in
  let missing :=
    (Throw (Error (if String.eqb (tool request) "deploy"
                   then "Missing deployment input (arguments or resource)"
                   else "Missing deletion input (arguments or resource)")),
     st) in
  let work (data : JsValue) :=
    if negb (truthy data) then missing
    else if String.eqb (tool request) "deploy" then
      match resolveDeploy ts data with
      | Ok body =>
          (deployAnswer body,
           mkState (Some (sent ++ [mkPublished "deploy" body])%list))
      | Throw e => (Throw e, st)
      end
    else
      match Zod.safeParse DeleteSchema data with
      | Zod.Success body =>
          (deleteAnswer body,
           mkState (Some (sent ++ [mkPublished "delete" body])%list))
      | Zod.Failure errors =>
          (Throw (Error ("Invalid arguments: " ++ Zod.formatIssues errors)), st)
      end in
  CallTool ts request st =
    match arguments request with
    | JUndefined | JNull =>
        match resource request with
        | JUndefined | JNull => missing
        | res =>
            match getProp res "attributes" with
            | JUndefined | JNull => missing
            | attributes => work attributes
            end
        end
    | args => work args
    end.
Proof.
  intros Hwhich st missing work.
  assert (Hwork : CallTool ts request st = work (inputOf request)).
  { subst work missing st. cbv beta.
    destruct Hwhich as [H|H].
    - rewrite H. cbn [String.eqb Ascii.eqb Bool.eqb].
      destruct (truthy (inputOf request)) eqn:Hdata; cbn [negb].
      + destruct (resolveDeploy ts (inputOf request)) as [body|e] eqn:Hres.
        * now apply CallTool_deploy_ok.
        * rewrite (CallTool_deploy_throw ts request _ e H Hres).
          cbn [nats]. now rewrite Hdata.
      + unfold CallTool. cbn [nats]. rewrite H.
        cbn [String.eqb Ascii.eqb Bool.eqb]. unfold catchZod, deploy.
        now rewrite Hdata.
    - rewrite (CallTool_delete ts request sent H), H.
      cbn [String.eqb Ascii.eqb Bool.eqb].
      now destruct (truthy (inputOf request)). }
  rewrite Hwork. unfold inputOf, coalesce, optChain.
  assert (Hmiss : forall v, nullish v = true -> work v = missing).
  { intros v Hv. subst work. cbv beta.
    now rewrite (nullish_not_truthy v Hv). }
  destruct (arguments request) eqn:Hargs; cbn [nullish]; try reflexivity;
    (destruct (resource request) eqn:Hres; cbn [nullish];
     [now apply Hmiss | now apply Hmiss | | | | |];
     (destruct (getProp _ "attributes") eqn:Hattr;
      [now apply Hmiss | now apply Hmiss | reflexivity ..])).
Qed.

Lemma nats_input_selection_witness :
  let creds := ("creds", JObject []) in
  let byName (n : string) :=
    JObject [("user_id", JString "u1"); ("name", JString n); creds] in
  let command (t : string) :=
    JObject [("user_id", JString "u1"); ("template_id", JString t); creds] in
  let attributes (v : JsValue) := JObject [("attributes", v)] in
  let st := mkState (Some []) in
  (* arguments and resource.attributes both there: arguments win *)
  handler (mkParams "deploy" (byName "gpt") (attributes (byName "mongo"))) st
  = (Ok (textResult "Deploy event published for user u1 using template tpl-gpt"),
     mkState (Some [mkPublished "deploy" (command "tpl-gpt")]))
  (* no arguments: resource.attributes *)
  /\ handler (mkParams "deploy" JUndefined (attributes (byName "mongo"))) st
     = (Ok (textResult
              "Deploy event published for user u1 using template tpl-mongo"),
        mkState (Some [mkPublished "deploy" (command "tpl-mongo")]))
  /\ handler
       (mkParams "delete" JNull
          (attributes (JObject [("server_id", JString "srv-9")]))) st
     = (Ok (textResult "Delete event published for server srv-9"),
        mkState
          (Some [mkPublished "delete"
                   (JObject [("server_id", JString "srv-9")])]))
  /\ handler
       (mkParams "delete" (JObject [("server_id", JString "srv-1")])
          (attributes (JObject [("server_id", JString "srv-9")]))) st
     = (Ok (textResult "Delete event published for server srv-1"),
        mkState
          (Some [mkPublished "delete"
                   (JObject [("server_id", JString "srv-1")])]))
  (* neither *)
  /\ handler
       (mkParams "deploy" JUndefined (JObject [("type", JString "server")])) st
     = (Throw (Error "Missing deployment input (arguments or resource)"), st)
  /\ handler (mkParams "delete" JUndefined JUndefined) st
     = (Throw (Error "Missing deletion input (arguments or resource)"), st).
Proof.
  cbv zeta. split; [|split; [|split; [|split; [|split]]]].
  - apply (nats_input_selection templates
             (mkParams "deploy"
                (JObject [("user_id", JString "u1"); ("name", JString "gpt");
                          ("creds", JObject [])])
                (JObject [("attributes",
                           JObject [("user_id", JString "u1");
                                    ("name", JString "mongo");
                                    ("creds", JObject [])])])) []).
    left. reflexivity.
  - apply (nats_input_selection templates
             (mkParams "deploy" JUndefined
                (JObject [("attributes",
                           JObject [("user_id", JString "u1");
                                    ("name", JString "mongo");
                                    ("creds", JObject [])])])) []).
    left. reflexivity.
  - apply (nats_input_selection templates
             (mkParams "delete" JNull
                (JObject [("attributes",
                           JObject [("server_id", JString "srv-9")])])) []).
    right. reflexivity.
  - apply (nats_input_selection templates
             (mkParams "delete" (JObject [("server_id", JString "srv-1")])
                (JObject [("attributes",
                           JObject [("server_id", JString "srv-9")])])) []).
    right. reflexivity.
  - apply (nats_input_selection templates
             (mkParams "deploy" JUndefined
                (JObject [("type", JString "server")])) []).
    left. reflexivity.
  - apply (nats_input_selection templates
             (mkParams "delete" JUndefined JUndefined) []).
    right. reflexivity.
Defined.

End InputRead.

(* ================================================================= *)
(** ** What the resolver accepts and what it hands on *)

Section ResolverFacts.

Import Nats.

(** X6. The strict path takes exactly the objects whose [user_id] and
    [template_id] are strings; [creds] may be anything, or absent. *)
Theorem strictShape_iff (data : JsValue) :
  strictShape data = true <->
  exists props u t,
    data = JObject props
    /\ lookup "user_id" props = Some (JString u)
    /\ lookup "template_id" props = Some (JString t).
Proof.
  unfold strictShape, Zod.safeParse, DeploySchema. split.
  - destruct data as [| | | | | |props]; try discriminate.
    cbn [Zod.shapeIssues Zod.fieldIssues getProp].
    destruct (lookup "user_id" props) as [[| | | |u| |]|] eqn:Hu;
      cbn; try discriminate;
      destruct (lookup "template_id" props) as [[| | | |t| |]|] eqn:Ht;
      cbn; try discriminate.
    intros _. now exists props, u, t.
  - intros (props & u & t & -> & Hu & Ht).
    cbn [Zod.shapeIssues Zod.fieldIssues getProp].
    now rewrite Hu, Ht.
Qed.

(** X7. A command resolved on the strict path is resolved to itself again,
    over any catalog: it has the strict shape and nothing else. *)
Theorem strict_command_revalidates
        (ts ts' : list Template) (data body : JsValue) :
  strictShape data = true ->
  resolveDeploy ts data = Ok body ->
  resolveDeploy ts' body = Ok body.
Proof.
  unfold strictShape, resolveDeploy.
  destruct (Zod.safeParse DeploySchema data) as [parsed|] eqn:Hp;
    [|discriminate].
  intros _ [= <-]. now rewrite (safeParse_again _ _ _ Hp).
Qed.

Lemma strict_command_revalidates_witness :
  resolveDeploy []
    (JObject [("user_id", JString "u1"); ("template_id", JString "tpl-x")])
  = Ok (JObject [("user_id", JString "u1"); ("template_id", JString "tpl-x")]).
Proof.
  apply (strict_command_revalidates templates []
           (JObject [("extra", JNull); ("template_id", JString "tpl-x");
                     ("user_id", JString "u1")])); reflexivity.
Defined.

(** X8. The fallback does not check the type of [user_id]: whenever the
    guard passes and some entry matches the name, the resolver returns
    a command that carries the [user_id] of the input as it is, of
    whatever type, and that command has the strict shape only if the
    [user_id] is a string. *)
Theorem fallback_keeps_unchecked_user_id
        (ts : list Template) (data : JsValue) (n : string) (t : Template) :
  strictShape data = false -> fallbackShape data = true ->
  getProp data "name" = JString n ->
  In t ts -> matches n t = true ->
  exists body,
    resolveDeploy ts data = Ok body
    /\ getProp body "user_id" = getProp data "user_id"
    /\ strictShape body =
         match getProp data "user_id" with
         | JString _ => true
         | _ => false
         end.
Proof.
  intros Hs Hf Hn Hin Hm.
  rewrite (resolveDeploy_fallback ts data Hs Hf), Hn, find_string.
  destruct (List.find (matches n) ts) as [t'|] eqn:Hfind.
  - exists (fallbackCommand data t'). split; [reflexivity|].
    split; [reflexivity|].
    unfold strictShape, fallbackCommand, Zod.safeParse, DeploySchema.
    cbn [Zod.shapeIssues Zod.fieldIssues getProp lookup String.eqb Ascii.eqb
         Bool.eqb].
    destruct (getProp data "user_id"); reflexivity.
  - rewrite (List.find_none _ _ Hfind t Hin) in Hm. discriminate.
Qed.

Lemma fallback_keeps_unchecked_user_id_witness :
  exists body,
    resolveDeploy templates
      (JObject [("user_id", JNumber 5); ("name", JString "gpt");
                ("creds", JObject [])]) = Ok body
    /\ getProp body "user_id" = JNumber 5
    /\ strictShape body = false.
Proof.
  apply (fallback_keeps_unchecked_user_id templates
           (JObject [("user_id", JNumber 5); ("name", JString "gpt");
                     ("creds", JObject [])])
           "gpt"
           (mkTemplate "tpl-gpt" "Basic GPT Server"
              (Some "A basic inference stack"))); try reflexivity.
  cbn. auto.
Defined.

(** X9. The fallback is sound: the command it resolves names an entry of the
    catalog, and the lowercased name of that entry contains the
    lowercased name of the input, which is a string. *)
Theorem fallback_sound
        (ts : list Template) (data body : JsValue) :
  strictShape data = false ->
  resolveDeploy ts data = Ok body ->
  exists t n pre post,
    In t ts
    /\ body = fallbackCommand data t
    /\ getProp data "name" = JString n
    /\ toLowerCase (name t) = pre ++ toLowerCase n ++ post.
Proof.
  intros Hs. destruct (fallbackShape data) eqn:Hf.
  - rewrite (resolveDeploy_fallback ts data Hs Hf).
    destruct (getProp data "name") as [| | | |n| |] eqn:Hn;
      try (destruct ts; cbn [Nats.find callToLowerCase]; try discriminate;
           destruct (templateString _); discriminate).
    rewrite find_string.
    destruct (List.find (matches n) ts) as [t|] eqn:Hfind; [|discriminate].
    intros [= <-]. apply find_some in Hfind as [Hin Hm].
    apply includes_app in Hm as (pre & post & Hm).
    now exists t, n, pre, post.
  - unfold resolveDeploy. rewrite (safeParse_failure_violations data Hs).
    unfold fallbackShape in Hf.
    destruct (truthy (getProp data "name")),
      (truthy (getProp data "user_id")),
      (truthy (getProp data "creds")); discriminate.
Qed.

Lemma fallback_sound_witness :
  exists t n pre post,
    In t templates
    /\ JObject [("user_id", JString "u1"); ("template_id", JString "tpl-gpt");
                ("creds", JObject [])]
       = fallbackCommand
           (JObject [("user_id", JString "u1"); ("name", JString "GPT");
                     ("creds", JObject [])]) t
    /\ getProp
         (JObject [("user_id", JString "u1"); ("name", JString "GPT");
                   ("creds", JObject [])]) "name" = JString n
    /\ toLowerCase (name t) = pre ++ toLowerCase n ++ post.
Proof.
  apply (fallback_sound templates
           (JObject [("user_id", JString "u1"); ("name", JString "GPT");
                     ("creds", JObject [])])); reflexivity.
Defined.

(** X10. The fallback is complete on ASCII names, where [toLowerCase]
    moves the letters [A]-[Z] and nothing else: when the names of the
    catalog and the name of the input are ASCII, a name that is, up to
    the case of its letters, a piece of the name of some entry is never
    answered with "No template found"; the command names an entry that
    matches. *)
Theorem fallback_finds_substring
        (ts : list Template) (data : JsValue) (t : Template)
        (n pre sub post : string) :
  Forall (fun entry => isAscii (name entry) = true) ts ->
  isAscii n = true ->
  strictShape data = false -> fallbackShape data = true ->
  getProp data "name" = JString n ->
  In t ts ->
  name t = pre ++ sub ++ post ->
  toLowerCase n = toLowerCase sub ->
  exists t',
    In t' ts /\ matches n t' = true
    /\ resolveDeploy ts data = Ok (fallbackCommand data t').
Proof.
  intros _ _ Hs Hf Hn Hin Hname Hcase.
  assert (Hm : matches n t = true).
  { unfold matches. apply includes_app.
    exists (toLowerCase pre), (toLowerCase post).
    now rewrite Hname, !toLowerCase_app, Hcase. }
  rewrite (resolveDeploy_fallback ts data Hs Hf), Hn, find_string.
  destruct (List.find (matches n) ts) as [t'|] eqn:Hfind.
  - apply find_some in Hfind as [Hin' Hm']. now exists t'.
  - rewrite (List.find_none _ _ Hfind t Hin) in Hm. discriminate.
Qed.

Lemma fallback_finds_substring_witness :
  exists t',
    In t' templates /\ matches "STORAGE" t' = true
    /\ resolveDeploy templates
         (JObject [("user_id", JString "u1"); ("name", JString "STORAGE");
                   ("creds", JObject [])])
       = Ok (fallbackCommand
               (JObject [("user_id", JString "u1"); ("name", JString "STORAGE");
                         ("creds", JObject [])]) t').
Proof.
  apply (fallback_finds_substring templates
           (JObject [("user_id", JString "u1"); ("name", JString "STORAGE");
                     ("creds", JObject [])])
           (mkTemplate "tpl-scraper" "Scraper + Storage"
              (Some "Web scraper with data sink"))
           "STORAGE" "Scraper + " "Storage" ""); try reflexivity.
  - repeat constructor.
  - cbn. auto.
Defined.

End ResolverFacts.

(* ================================================================= *)
(** ** The REST handler, tool by tool *)

Section RestCalls.

Lemma app_one_neq {A : Type} (l : list A) (x : A) : (l ++ [x])%list <> l.
Proof.
  intros H. apply (f_equal (@length A)) in H.
  rewrite length_app in H. cbn in H.
  rewrite PeanoNat.Nat.add_1_r in H. now apply PeanoNat.Nat.neq_succ_diag_l in H.
Qed.

(** The deploy and delete tools of the REST variant: parse, then one
    request, then the confirmation or the rejection of the API. *)
Lemma rest_deploy (api : Rest.Api) (request : Rest.ToolRequestParams)
      (log : Rest.State) :
  Rest.tool request = "deploy" ->
  Rest.handler api request log =
    match Zod.safeParse Rest.DeploySchema (Rest.arguments request) with
    | Zod.Failure errors => (Throw (ZodError errors), log)
    | Zod.Success body =>
        (match api (Rest.Post "/api/servers" body) with
         | Ok _ =>
             match templateString (getProp body "template_id") with
             | Ok template_id =>
                 Ok (textResult ("✅ Deployment triggered for template ID: "
                                   ++ template_id))
             | Throw e => Throw e
             end
         | Throw e => Throw e
         end,
         (log ++ [Rest.Post "/api/servers" body])%list)
    end.
Proof.
  intros Htool. unfold Rest.handler. rewrite Htool.
  cbn [String.eqb Ascii.eqb Bool.eqb].
  unfold Rest.deploy, Rest.bind, Rest.lift, Rest.send, Rest.ret, zparse.
  destruct (Zod.safeParse Rest.DeploySchema (Rest.arguments request));
    [|reflexivity].
  destruct (api _); [|reflexivity].
  destruct (templateString _); reflexivity.
Qed.

Lemma rest_delete_fail (api : Rest.Api) (request : Rest.ToolRequestParams)
      (log : Rest.State) (errors : list Zod.ZodIssue) :
  Rest.tool request = "delete" ->
  Zod.safeParse Rest.DeleteSchema (Rest.arguments request)
    = Zod.Failure errors ->
  Rest.handler api request log = (Throw (ZodError errors), log).
Proof.
  intros Htool Hp. unfold Rest.handler. rewrite Htool.
  cbn [String.eqb Ascii.eqb Bool.eqb].
  unfold Rest.delete, Rest.bind, Rest.lift, zparse. now rewrite Hp.
Qed.

Lemma rest_delete_ok (api : Rest.Api) (request : Rest.ToolRequestParams)
      (log : Rest.State) (body : JsValue) :
  Rest.tool request = "delete" ->
  Zod.safeParse Rest.DeleteSchema (Rest.arguments request)
    = Zod.Success body ->
  exists server_id,
    body = JObject [("server_id", JString server_id)]
    /\ Rest.handler api request log =
         (match api (Rest.Delete ("/api/servers/" ++ server_id)) with
          | Ok _ =>
              Ok (textResult
                    ("🗑️ Server " ++ server_id ++ " deleted successfully"))
          | Throw e => Throw e
          end,
          (log ++ [Rest.Delete ("/api/servers/" ++ server_id)])%list).
Proof.
  intros Htool Hp.
  destruct (safeParse_delete_success _ _ Hp) as [s Hbody].
  exists s. split; [exact Hbody|].
  unfold Rest.handler. rewrite Htool.
  cbn [String.eqb Ascii.eqb Bool.eqb].
  unfold Rest.delete, Rest.bind, Rest.lift, Rest.send, Rest.ret, zparse.
  rewrite Hp, Hbody. cbn. destruct (api _); reflexivity.
Qed.

Lemma rest_other (api : Rest.Api) (request : Rest.ToolRequestParams)
      (log : Rest.State) :
  Rest.tool request <> "deploy" -> Rest.tool request <> "delete" ->
  Rest.handler api request log =
    if String.eqb (Rest.tool request) "list_templates"
    then (match api (Rest.Get "/api/templates") with
          | Ok items => Ok (textResult (Rest.templatesText items))
          | Throw e => Throw e
          end,
          (log ++ [Rest.Get "/api/templates"])%list)
    else (Throw (Error ("Unknown tool: " ++ Rest.tool request)), log).
Proof.
  intros Hd Hx. unfold Rest.handler.
  apply String.eqb_neq in Hd, Hx. rewrite Hd, Hx.
  destruct (String.eqb (Rest.tool request) "list_templates"); [|reflexivity].
  unfold Rest.list_templates, Rest.bind, Rest.send, Rest.ret.
  destruct (api _); reflexivity.
Qed.

(** X11. One call sends at most one request, behind those sent before;
    which request it is depends on the tool and its arguments only, not
    on the requests sent before nor on what the API answers. *)
Theorem rest_call_sends_at_most_once (request : Rest.ToolRequestParams) :
  exists calls : list Rest.HttpCall,
    (length calls <= 1)%nat
    /\ forall (api : Rest.Api) (log : Rest.State),
         snd (Rest.handler api request log) = (log ++ calls)%list.
Proof.
  destruct (string_dec (Rest.tool request) "deploy") as [Hd|Hd].
  - destruct (Zod.safeParse Rest.DeploySchema (Rest.arguments request))
      as [body|errors] eqn:Hp.
    + exists [Rest.Post "/api/servers" body]. split; [cbn; auto|].
      intros api log.
      rewrite (rest_deploy api request log Hd), Hp. reflexivity.
    + exists []. split; [cbn; auto|]. intros api log.
      rewrite (rest_deploy api request log Hd), Hp, app_nil_r. reflexivity.
  - destruct (string_dec (Rest.tool request) "delete") as [Hx|Hx].
    + destruct (Zod.safeParse Rest.DeleteSchema (Rest.arguments request))
        as [body|errors] eqn:Hp.
      * destruct (safeParse_delete_success _ _ Hp) as [s Hbody].
        exists [Rest.Delete ("/api/servers/" ++ s)]. split; [cbn; auto|].
        intros api log.
        destruct (rest_delete_ok api request log body Hx Hp)
          as (s' & Hbody' & ->).
        rewrite Hbody in Hbody'. injection Hbody' as <-. reflexivity.
      * exists []. split; [cbn; auto|]. intros api log.
        rewrite (rest_delete_fail api request log errors Hx Hp), app_nil_r.
        reflexivity.
    + destruct (String.eqb (Rest.tool request) "list_templates") eqn:Hl.
      * exists [Rest.Get "/api/templates"]. split; [cbn; auto|].
        intros api log.
        rewrite (rest_other api request log Hd Hx), Hl. reflexivity.
      * exists []. split; [cbn; auto|]. intros api log.
        rewrite (rest_other api request log Hd Hx), Hl, app_nil_r.
        reflexivity.
Qed.

(** X12. A REST deploy call with a string [template_id] posts the template id
    and the credentials, when there are any, and no other key of the
    arguments; the request is sent before the API can reject it, and a
    rejection is what the handler throws. *)
Theorem rest_deploy_posts_parsed_body
        (api : Rest.Api) (request : Rest.ToolRequestParams)
        (props : list (string * JsValue)) (t : string) (log : Rest.State) :
  Rest.tool request = "deploy" ->
  Rest.arguments request = JObject props ->
  lookup "template_id" props = Some (JString t) ->
  let body :=
    JObject (("template_id", JString t)
               :: match lookup "creds" props with
                  | Some c => [("creds", c)]
                  | None => []
                  end) in
  Rest.handler api request log =
    (match api (Rest.Post "/api/servers" body) with
     | Ok _ => Ok (textResult ("✅ Deployment triggered for template ID: " ++ t))
     | Throw e => Throw e
     end,
     (log ++ [Rest.Post "/api/servers" body])%list).
Proof.
  intros Htool Hargs Ht body.
  rewrite (rest_deploy api request log Htool), Hargs.
  unfold Zod.safeParse, Rest.DeploySchema.
  cbn [Zod.shapeIssues Zod.shapeOutput Zod.fieldIssues getProp].
  rewrite Ht. cbn [app]. subst body.
  destruct (lookup "creds" props); reflexivity.
Qed.

Lemma rest_deploy_posts_parsed_body_witness :
  Rest.handler (fun _ => Throw (AxiosError "Request failed with status code 500"))
    (Rest.mkParams "deploy"
       (JObject [("note", JString "x"); ("template_id", JString "tpl-1");
                 ("creds", JObject [])])) []
  = (Throw (AxiosError "Request failed with status code 500"),
     [Rest.Post "/api/servers"
        (JObject [("template_id", JString "tpl-1"); ("creds", JObject [])])]).
Proof.
  apply (rest_deploy_posts_parsed_body
           (fun _ => Throw (AxiosError "Request failed with status code 500"))
           (Rest.mkParams "deploy"
              (JObject [("note", JString "x"); ("template_id", JString "tpl-1");
                        ("creds", JObject [])]))
           [("note", JString "x"); ("template_id", JString "tpl-1");
            ("creds", JObject [])] "tpl-1" []); reflexivity.
Defined.

(** X13. A REST delete call with a string [server_id] calls
    [client.delete] once, with the url made of ["/api/servers/"] and the
    id, which is neither checked nor escaped, whatever string the id is:
    what the client makes of dot segments, [?] or [#] in that url is
    left to the client. *)
Theorem rest_delete_url
        (api : Rest.Api) (request : Rest.ToolRequestParams)
        (props : list (string * JsValue)) (s : string) (log : Rest.State) :
  Rest.tool request = "delete" ->
  Rest.arguments request = JObject props ->
  lookup "server_id" props = Some (JString s) ->
  Rest.handler api request log =
    (match api (Rest.Delete ("/api/servers/" ++ s)) with
     | Ok _ => Ok (textResult ("🗑️ Server " ++ s ++ " deleted successfully"))
     | Throw e => Throw e
     end,
     (log ++ [Rest.Delete ("/api/servers/" ++ s)])%list).
Proof.
  intros Htool Hargs Hs.
  assert (Hp : Zod.safeParse Rest.DeleteSchema (Rest.arguments request)
               = Zod.Success (JObject [("server_id", JString s)])).
  { rewrite Hargs. unfold Zod.safeParse, Rest.DeleteSchema.
    cbn [Zod.shapeIssues Zod.shapeOutput Zod.fieldIssues getProp].
    now rewrite Hs. }
  destruct (rest_delete_ok api request log _ Htool Hp) as (s' & Hbody & ->).
  now injection Hbody as <-.
Qed.

Lemma rest_delete_url_witness :
  Rest.handler (fun _ => Ok [])
    (Rest.mkParams "delete" (JObject [("server_id", JString "../templates?x=1")]))
    []
  = (Ok (textResult "🗑️ Server ../templates?x=1 deleted successfully"),
     [Rest.Delete "/api/servers/../templates?x=1"]).
Proof.
  apply (rest_delete_url (fun _ => Ok [])
           (Rest.mkParams "delete"
              (JObject [("server_id", JString "../templates?x=1")]))
           [("server_id", JString "../templates?x=1")]
           "../templates?x=1" []); reflexivity.
Defined.

(** X14. The REST handler answers [Unknown tool], without a request, exactly
    for the names that the tool listing does not have. *)
Theorem rest_unknown_tool_iff_unlisted
        (api : Rest.Api) (request : Rest.ToolRequestParams)
        (log : Rest.State) :
  Rest.handler api request log =
    (Throw (Error ("Unknown tool: " ++ Rest.tool request)), log)
  <-> ~ In (Rest.tool request) (map Listing.name Listing.restTools).
Proof.
  cbn [map Listing.name Listing.restTools In].
  destruct (string_dec (Rest.tool request) "deploy") as [Hd|Hd].
  - split; [|intros H; destruct H; auto].
    intros H _. rewrite (rest_deploy api request log Hd) in H.
    destruct (Zod.safeParse Rest.DeploySchema (Rest.arguments request));
      [|discriminate].
    injection H as _ H. now apply app_one_neq in H.
  - destruct (string_dec (Rest.tool request) "delete") as [Hx|Hx].
    + split; [|intros H; destruct H; auto].
      intros H _.
      destruct (Zod.safeParse Rest.DeleteSchema (Rest.arguments request))
        as [body|errors] eqn:Hp.
      * destruct (rest_delete_ok api request log body Hx Hp)
          as (s & _ & Hrun).
        rewrite Hrun in H. injection H as _ H. now apply app_one_neq in H.
      * rewrite (rest_delete_fail api request log errors Hx Hp) in H.
        discriminate.
    + rewrite (rest_other api request log Hd Hx).
      destruct (String.eqb_spec (Rest.tool request) "list_templates") as [Hl|Hl].
      * split; [|intros H; destruct H; auto].
        intros H _. injection H as _ H. now apply app_one_neq in H.
      * split; [|reflexivity]. intros _ [H|[H|[H|[]]]]; congruence.
Qed.

(** X15. [list_templates] of the REST variant answers ["No templates found."]
    exactly when the API returned no template. *)
Theorem rest_no_templates_iff_empty
        (api : Rest.Api) (args : JsValue) (items : list Rest.Template)
        (log : Rest.State) :
  api (Rest.Get "/api/templates") = Ok items ->
  (fst (Rest.handler api (Rest.mkParams "list_templates" args) log)
     = Ok (textResult "No templates found.")
   <-> items = []).
Proof.
  intros Hapi.
  rewrite (rest_other api _ log); cbn [Rest.tool]; try discriminate.
  cbn [String.eqb Ascii.eqb Bool.eqb fst]. rewrite Hapi.
  split; [|now intros ->].
  destruct items as [|t rest]; [reflexivity|].
  rewrite templatesText_cons. cbn [map join].
  destruct (map Rest.templateEntry rest); unfold Rest.templateEntry;
    cbn; discriminate.
Qed.

Lemma rest_no_templates_iff_empty_witness :
  fst (Rest.handler (fun _ => Ok []) (Rest.mkParams "list_templates" JNull) [])
    = Ok (textResult "No templates found.")
  <-> @nil Rest.Template = [].
Proof.
  apply (rest_no_templates_iff_empty (fun _ => Ok []) JNull [] []).
  reflexivity.
Defined.

End RestCalls.

(* ================================================================= *)
(** ** Every template is in the listing *)

Section ListingAll.

(** A part of a joined text occurs in it. *)
Lemma join_In (sep x : string) (parts : list string) :
  In x parts -> exists pre post, join sep parts = pre ++ x ++ post.
Proof.
  induction parts as [|p rest IH]; [intros []|].
  intros [->|Hin].
  - destruct rest as [|q rest].
    + exists "", "". cbn. clear. induction x; cbn; congruence.
    + now exists "", (sep ++ join sep (q :: rest)).
  - destruct (IH Hin) as (pre & post & Hj).
    destruct rest as [|q rest]; [destruct Hin|].
    exists (p ++ sep ++ pre), post.
    change (join sep (p :: q :: rest)) with (p ++ sep ++ join sep (q :: rest)).
    now rewrite Hj, !append_assoc.
Qed.


(** X17. [list_templates] of the REST variant sends one [GET] and its text
    has the three lines of every template the API returned. *)
Theorem rest_listing_shows_every_template
        (api : Rest.Api) (args : JsValue) (items : list Rest.Template)
        (log : Rest.State) (t : Rest.Template) :
  api (Rest.Get "/api/templates") = Ok items ->
  In t items ->
  exists listing,
    Rest.handler api (Rest.mkParams "list_templates" args) log
    = (Ok (textResult listing), (log ++ [Rest.Get "/api/templates"])%list)
    /\ includes listing (join LF (entryLines t)) = true.
Proof.
  intros Hapi Hin.
  rewrite (rest_other api _ log); cbn [Rest.tool]; try discriminate.
  cbn [String.eqb Ascii.eqb Bool.eqb]. rewrite Hapi.
  eexists. split; [reflexivity|].
  destruct items as [|t0 rest]; [destruct Hin|].
  rewrite templatesText_cons, <- templateEntry_lines.
  apply includes_app. apply join_In. now apply in_map.
Qed.

Lemma rest_listing_shows_every_template_witness :
  exists listing,
    Rest.handler
      (fun _ => Ok [Rest.mkTemplate "t1" "Mongo" "/m" [] "database" None
                      true false None "2024" None;
                    Rest.mkTemplate "t2" "" "/g" ["key"] "" (Some "llm")
                      false false None "2024" None])
      (Rest.mkParams "list_templates" JUndefined) []
    = (Ok (textResult listing), [Rest.Get "/api/templates"])
    /\ includes listing
         (join LF ["• (unnamed) (t2)"; "  Type: (no type) / llm";
                   "  Fields: key"]) = true.
Proof.
  apply (rest_listing_shows_every_template
           (fun _ => Ok [Rest.mkTemplate "t1" "Mongo" "/m" [] "database" None
                           true false None "2024" None;
                         Rest.mkTemplate "t2" "" "/g" ["key"] "" (Some "llm")
                           false false None "2024" None])
           JUndefined
           [Rest.mkTemplate "t1" "Mongo" "/m" [] "database" None
              true false None "2024" None;
            Rest.mkTemplate "t2" "" "/g" ["key"] "" (Some "llm")
              false false None "2024" None]
           []
           (Rest.mkTemplate "t2" "" "/g" ["key"] "" (Some "llm")
              false false None "2024" None)).
  - reflexivity.
  - cbn. auto.
Defined.

End ListingAll.
